(** * ms-teams-push: the notification relay of [main.py]

    A shallow embedding of [src/main.py] -- the intervention fetcher
    [get_interventions], the card builder [_generate_adaptive_card], the
    webhook sender [send_teams_message] and the [__main__] block -- together
    with the properties of the specification that concern them.

    Python values are the values a JSON document decodes to.  Exceptions are
    explicit: a computation returns [Ok a] or [Raise e].  Output (log records,
    the printed card, HTTP requests) is collected in a trace that survives an
    exception, as the output of a Python process does. *)

From Stdlib Require Import String Ascii List ZArith Bool Lia DecimalString.
Import ListNotations.
Set Warnings "-register-all".
Open Scope string_scope.

(** ** Python values and the builtins the program uses *)

Module Py.

(** What [json.loads] can produce, and what the card is made of.  A float is
    represented by its [repr], which determines it.  A string is a sequence of
    characters, each [ascii] standing for the code point of the same number.
    A dict lists its items in insertion order; keys are strings. *)
Inductive value : Type :=
| VNone
| VBool (b : bool)
| VInt (z : Z)
| VFloat (repr : string)
| VStr (s : string)
| VList (l : list value)
| VDict (d : list (string * value)).

(** [RequestException kind msg] is an exception of the family of
    [requests.exceptions.RequestException], [kind] the name of its class and
    [msg] its [str()].  [OtherException kind msg] is an exception of a class
    outside the ones named here, such as [LocationParseError] of urllib3. *)
Inductive exn : Type :=
| TypeError
| AttributeError
| KeyError
| IndexError
| JSONDecodeError
| RequestException (kind msg : string)
| OtherException (kind msg : string)
| SystemExit (code : Z).

Inductive result (A : Type) : Type :=
| Ok (a : A)
| Raise (e : exn).
Arguments Ok {A} a.
Arguments Raise {A} e.

Definition bind {A B} (m : result A) (f : A -> result B) : result B :=
  match m with
  | Ok a => f a
  | Raise e => Raise e
  end.

Notation "x <- m ;; k" := (bind m (fun x => k))
  (at level 61, m at next level, right associativity).

Fixpoint mapM {A B} (f : A -> result B) (l : list A) : result (list B) :=
  match l with
  | [] => Ok []
  | x :: l' =>
      y <- f x ;;
      ys <- mapM f l' ;;
      Ok (y :: ys)
  end.

(** [d.get(key)] on the items of a dict with string keys. *)
Fixpoint lookup (key : string) (d : list (string * value)) : option value :=
  match d with
  | [] => None
  | (k, v) :: d' => if String.eqb key k then Some v else lookup key d'
  end.

(** [bool(v)]. *)
Definition truthy (v : value) : bool :=
  match v with
  | VNone => false
  | VBool b => b
  | VInt z => negb (Z.eqb z 0)
  | VFloat r => negb (String.eqb r "0.0" || String.eqb r "-0.0")
  | VStr s => negb (String.eqb s "")
  | VList l => match l with [] => false | _ => true end
  | VDict d => match d with [] => false | _ => true end
  end.

(** [len(v)]: defined on strings, lists and dicts. *)
Definition py_len (v : value) : result Z :=
  match v with
  | VStr s => Ok (Z.of_nat (String.length s))
  | VList l => Ok (Z.of_nat (List.length l))
  | VDict d => Ok (Z.of_nat (List.length d))
  | _ => Raise TypeError
  end.

Fixpoint chars (s : string) : list value :=
  match s with
  | EmptyString => []
  | String c s' => VStr (String c EmptyString) :: chars s'
  end.

(** [iter(v)], run to the end: the elements of a list, the keys of a dict,
    the characters of a string. *)
Definition py_iter (v : value) : result (list value) :=
  match v with
  | VStr s => Ok (chars s)
  | VList l => Ok l
  | VDict d => Ok (map (fun kv => VStr (fst kv)) d)
  | _ => Raise TypeError
  end.

(** [obj.get(key, default)] with a string literal for [key]: only a dict has
    the method. *)
Definition py_get (obj : value) (key : string) (default : value) : result value :=
  match obj with
  | VDict d => Ok (match lookup key d with Some v => v | None => default end)
  | _ => Raise AttributeError
  end.

(** [d.get(key, default)] for a dict literal [d] with string keys and any
    [key]: a list or a dict is unhashable, and only a string equals a
    string. *)
Definition dict_get (d : list (string * value)) (key default : value) : result value :=
  match key with
  | VList _ | VDict _ => Raise TypeError
  | VStr s => Ok (match lookup s d with Some v => v | None => default end)
  | _ => Ok default
  end.

(** [v[0]]. *)
Definition py_getitem0 (v : value) : result value :=
  match v with
  | VList l => match l with x :: _ => Ok x | [] => Raise IndexError end
  | VStr s =>
      match s with
      | String c _ => Ok (VStr (String c EmptyString))
      | EmptyString => Raise IndexError
      end
  | VDict _ => Raise KeyError
  | _ => Raise TypeError
  end.

(** [sep.join(xs)]: every item must be a string. *)
Fixpoint py_join (sep : string) (xs : list value) : result string :=
  match xs with
  | [] => Ok ""
  | VStr s :: xs' =>
      match xs' with
      | [] => Ok s
      | _ => rest <- py_join sep xs' ;; Ok (s ++ sep ++ rest)
      end
  | _ => Raise TypeError
  end.

(** [str(n)] for an int. *)
Definition str_of_Z (z : Z) : string := NilZero.string_of_int (Z.to_int z).

Definition hex_digit (n : nat) : ascii :=
  ascii_of_nat (if n <? 10 then 48 + n else 87 + n)%nat.

Definition hex_escape (c : ascii) : string :=
  let n := nat_of_ascii c in
  String "\" (String "x" (String (hex_digit (n / 16)) (String (hex_digit (n mod 16)) EmptyString))).

Definition dquote : ascii := "034"%char.
Definition squote : ascii := "'"%char.

Fixpoint contains (c : ascii) (s : string) : bool :=
  match s with
  | EmptyString => false
  | String c' s' => Ascii.eqb c c' || contains c s'
  end.

(** One character of [repr(s)] for a string [s] quoted with [quote]. *)
Definition repr_char (quote c : ascii) : string :=
  let n := nat_of_ascii c in
  if Ascii.eqb c quote || Ascii.eqb c "\"%char then String "\" (String c EmptyString)
  else if (n =? 9)%nat then "\t"
  else if (n =? 10)%nat then "\n"
  else if (n =? 13)%nat then "\r"
  else if (n <? 32)%nat || (n =? 127)%nat then hex_escape c
  else if (n <? 127)%nat then String c EmptyString
  else if (n <=? 160)%nat || (n =? 173)%nat then hex_escape c
  else String c EmptyString.

Fixpoint repr_chars (quote : ascii) (s : string) : string :=
  match s with
  | EmptyString => EmptyString
  | String c s' => repr_char quote c ++ repr_chars quote s'
  end.

(** [repr(s)] for a string: single quotes, unless the string has a single
    quote and no double quote. *)
Definition repr_str (s : string) : string :=
  let quote := if contains squote s && negb (contains dquote s) then dquote else squote in
  String quote (repr_chars quote s ++ String quote EmptyString).

(** [repr(v)]. *)
Fixpoint py_repr (v : value) : string :=
  match v with
  | VNone => "None"
  | VBool b => if b then "True" else "False"
  | VInt z => str_of_Z z
  | VFloat r => r
  | VStr s => repr_str s
  | VList l => "[" ++ String.concat ", " (map py_repr l) ++ "]"
  | VDict d =>
      "{" ++ String.concat ", "
               (map (fun kv => repr_str (fst kv) ++ ": " ++ py_repr (snd kv)) d) ++ "}"
  end.

(** [str(v)], which is what [f"{v}"] inserts. *)
Definition py_str (v : value) : string :=
  match v with
  | VStr s => s
  | _ => py_repr v
  end.

(** Subscripting a nested document, for reading a card: [Key k] is [v[k]] on
    a dict, [Idx n] is [v[n]] on a list. *)
Inductive step : Type :=
| Key (k : string)
| Idx (n : nat).

Fixpoint at_path (p : list step) (v : value) : option value :=
  match p with
  | [] => Some v
  | Key k :: p' =>
      match v with
      | VDict d => match lookup k d with Some v' => at_path p' v' | None => None end
      | _ => None
      end
  | Idx n :: p' =>
      match v with
      | VList l => match nth_error l n with Some v' => at_path p' v' | None => None end
      | _ => None
      end
  end.

End Py.
Import Py.

(** ** The card builder *)

(** Lines 96-99 and 101-104: the same statement, once on
    [implementer_names] and once on [affected_names]. *)
Definition display_names (names : list value) : result string :=
  if (Z.of_nat (List.length names) >? 5)%Z then
    joined <- py_join ", " (firstn 5 names) ;;
    Ok (joined ++ ", and " ++ str_of_Z (Z.of_nat (List.length names) - 5) ++ " more.")
  else
    if truthy (VList names) then py_join ", " names else Ok "N/A".

Definition color_map : list (string * value) :=
  [ ("Red", VStr "attention");
    ("Amber", VStr "warning");
    ("Green", VStr "good") ].

Definition _generate_adaptive_card (data : value) : result value :=
  title <- py_get data "state_act_title" (VStr "N/A") ;;
  intervention_url <- py_get data "intervention_url" (VStr "#") ;;
  evaluation <- py_get data "gta_evaluation" (VStr "N/A") ;;
  affected_list <- py_get data "affected_jurisdictions" (VList []) ;;
  implementers_list <- py_get data "implementing_jurisdictions" (VList []) ;;
  intervention_type <- py_get data "intervention_type" (VStr "N/A") ;;
  mast_chapter <- py_get data "mast_chapter" (VStr "N/A") ;;
  date_implemented <- py_get data "date_implemented" (VStr "N/A") ;;

  is_in_force <- py_get data "is_in_force" (VInt 0) ;;
  implementation_level <- py_get data "implementation_level" (VStr "N/A") ;;
  affected_products <- py_get data "affected_products" (VList []) ;;
  affected_sectors <- py_get data "affected_sectors" (VList []) ;;

  implementer_names <-
    (xs <- py_iter implementers_list ;;
     mapM (fun i => py_get i "name" (VStr "N/A")) xs) ;;
  affected_names <-
    (xs <- py_iter affected_list ;;
     mapM (fun j => py_get j "name" (VStr "N/A")) xs) ;;

  display_implementer <- display_names implementer_names ;;
  display_affected <- display_names affected_names ;;

  status_color <- dict_get color_map evaluation (VStr "default") ;;

  let force_status := if truthy is_in_force then "In Force" else "Not In Force" in
  let force_color := if truthy is_in_force then "good" else "attention" in

  num_products <- py_len affected_products ;;
  num_sectors <- py_len affected_sectors ;;

  let card :=
    VDict [
      ("type", VStr "AdaptiveCard");
      ("$schema", VStr "http://adaptivecards.io/schemas/adaptive-card.json");
      ("version", VStr "1.5");
      ("body", VList [
        VDict [
          ("type", VStr "TextBlock");
          ("text", title);
          ("weight", VStr "bolder");
          ("size", VStr "medium");
          ("wrap", VBool true);
          ("horizontalAlignment", VStr "Center");
          ("style", VStr "heading")
        ];
        VDict [
          ("type", VStr "ColumnSet");
          ("columns", VList [
            VDict [
              ("type", VStr "Column");
              ("width", VStr "stretch");
              ("items", VList [
                VDict [
                  ("type", VStr "TextBlock");
                  ("text", VStr ("GTA Evaluation: " ++ py_str evaluation));
                  ("weight", VStr "bolder");
                  ("color", status_color);
                  ("spacing", VStr "small")
                ]
              ])
            ];
            VDict [
              ("type", VStr "Column");
              ("width", VStr "stretch");
              ("items", VList [
                VDict [
                  ("type", VStr "TextBlock");
                  ("text", VStr ("Status: " ++ force_status));
                  ("weight", VStr "bolder");
                  ("color", VStr force_color);
                  ("spacing", VStr "small");
                  ("horizontalAlignment", VStr "right")
                ]
              ])
            ]
          ])
        ];
        VDict [
          ("type", VStr "Container");
          ("style", VStr "emphasis");
          ("spacing", VStr "medium");
          ("items", VList [
            VDict [
              ("type", VStr "FactSet");
              ("spacing", VStr "medium");
              ("facts", VList [
                VDict [("title", VStr "Intervention Type"); ("value", intervention_type)];
                VDict [("title", VStr "MAST Chapter"); ("value", mast_chapter)];
                VDict [("title", VStr "Implementation Level"); ("value", implementation_level)];
                VDict [("title", VStr "Date Implemented"); ("value", date_implemented)];
                VDict [("title", VStr "Affected Products");
                       ("value", VStr (str_of_Z num_products ++ " product(s)"))];
                VDict [("title", VStr "Affected Sectors");
                       ("value", VStr (str_of_Z num_sectors ++ " sector(s)"))]
              ])
            ]
          ])
        ];
        VDict [
          ("type", VStr "Container");
          ("spacing", VStr "medium");
          ("items", VList [
            VDict [
              ("type", VStr "TextBlock");
              ("text", VStr "**Implementing Jurisdictions:**");
              ("wrap", VBool true);
              ("weight", VStr "bolder");
              ("spacing", VStr "medium")
            ];
            VDict [
              ("type", VStr "TextBlock");
              ("text", VStr display_implementer);
              ("wrap", VBool true);
              ("spacing", VStr "small")
            ]
          ])
        ];
        VDict [
          ("type", VStr "Container");
          ("spacing", VStr "medium");
          ("items", VList [
            VDict [
              ("type", VStr "TextBlock");
              ("text", VStr "**Affected Jurisdictions:**");
              ("wrap", VBool true);
              ("weight", VStr "bolder");
              ("spacing", VStr "medium")
            ];
            VDict [
              ("type", VStr "TextBlock");
              ("text", VStr display_affected);
              ("wrap", VBool true);
              ("spacing", VStr "small")
            ]
          ])
        ];
        VDict [
          ("type", VStr "Container");
          ("spacing", VStr "medium");
          ("items", VList [
            VDict [
              ("type", VStr "ActionSet");
              ("actions", VList [
                VDict [
                  ("type", VStr "Action.OpenUrl");
                  ("title", VStr "View Full Intervention Details");
                  ("url", intervention_url);
                  ("style", VStr "positive")
                ]
              ])
            ]
          ])
        ]
      ])
    ] in

  Ok (VDict [
    ("type", VStr "message");
    ("attachments", VList [
      VDict [
        ("contentType", VStr "application/vnd.microsoft.card.adaptive");
        ("content", card)
      ]
    ])
  ]).

(** ** The [requests] library, as far as the program uses it *)

Module Requests.

(** A call of [requests.post] or [requests.request].  [data] is the document
    whose JSON text ([json.dumps]) is the body of the request. *)
Record Request : Type := {
  method : string;
  url : string;
  headers : list (string * string);
  data : value
}.

(** [json] is what [response.json()] does: the decoded body, or the
    exception of a body that is not JSON. *)
Record Response : Type := {
  status_code : Z;
  reason : string;
  response_url : string;
  text : string;
  json : result value
}.

(** What a call of the library comes to: a response (the last one, when
    the library followed redirects); an exception of the [RequestException]
    family (connection error, timeout, ...); or an exception that the
    library lets through from below, outside that family (urllib3's
    [LocationParseError] for a host such as [example..com]). *)
Inductive Outcome : Type :=
| Responded (r : Response)
| Failed (kind msg : string)
| Leaked (kind msg : string).

(** [Response.raise_for_status]: an [HTTPError] for a status from 400 to
    599, nothing otherwise. *)
Definition http_error_msg (r : Response) : string :=
  if ((400 <=? status_code r) && (status_code r <? 500))%Z then
    str_of_Z (status_code r) ++ " Client Error: " ++ reason r
      ++ " for url: " ++ response_url r
  else if ((500 <=? status_code r) && (status_code r <? 600))%Z then
    str_of_Z (status_code r) ++ " Server Error: " ++ reason r
      ++ " for url: " ++ response_url r
  else "".

Definition raise_for_status (r : Response) : result unit :=
  if negb (String.eqb (http_error_msg r) "") then
    Raise (RequestException "HTTPError" (http_error_msg r))
  else Ok tt.

(** [Response.ok], which is also [bool(response)]. *)
Definition ok (r : Response) : bool :=
  match raise_for_status r with
  | Ok _ => true
  | Raise _ => false
  end.

End Requests.
Import Requests.

(** ** Effects: the trace of a run *)

Inductive level : Type := DEBUG | INFO | WARNING | ERROR.

Definition levelno (l : level) : Z :=
  match l with
  | DEBUG => 10
  | INFO => 20
  | WARNING => 30
  | ERROR => 40
  end.

Inductive func : Type :=
| get_interventions_fn
| generate_adaptive_card_fn
| send_teams_message_fn.

(** What a run does that can be observed: a log record that passed the level
    of the root logger, the card printed on standard output, a call of
    [requests.post] or [requests.request] (one call of the library, which
    may put more than one request on the wire when it follows redirects),
    and the entry into one of the three functions from the [__main__]
    block. *)
Inductive event : Type :=
| Log (lvl : level) (msg : string)
| Print (doc : value)
| Http (req : Request)
| Call (f : func) (args : list value).

(** What a run depends on: the environment (after [load_dotenv]) and what
    each call of [requests] comes to. *)
Record World : Type := {
  getenv : string -> option string;
  network : Request -> Outcome
}.

(** A computation with output: its result and the events it produced, which
    remain when it raises. *)
Definition io (A : Type) : Type := (result A * list event)%type.

Definition ret {A} (a : A) : io A := (Ok a, []).

Definition raise {A} (e : exn) : io A := (Raise e, []).

Definition lift {A} (r : result A) : io A := (r, []).

Definition emit (e : event) : io unit := (Ok tt, [e]).

Definition iobind {A B} (m : io A) (f : A -> io B) : io B :=
  match m with
  | (Ok a, t) => let (r, t') := f a in (r, (t ++ t')%list)
  | (Raise e, t) => (Raise e, t)
  end.

Notation "x <~ m ;; k" := (iobind m (fun x => k))
  (at level 61, m at next level, right associativity).
Notation "m ;;; k" := (iobind m (fun _ => k))
  (at level 61, right associativity).

(** [try: body / except requests.exceptions.RequestException as e: handler],
    the handler receiving [str(e)]. *)
Definition try_except_RequestException {A} (body : io A) (handler : string -> io A) : io A :=
  match body with
  | (Raise (RequestException _ msg), t) => let (r, t') := handler msg in (r, (t ++ t')%list)
  | _ => body
  end.

(** [logging.basicConfig(level=logging.INFO, ...)], lines 12-15. *)
Definition root_level : level := INFO.

Definition logging (lvl : level) (msg : string) : io unit :=
  if (levelno root_level <=? levelno lvl)%Z then emit (Log lvl msg) else ret tt.

Definition requests_request (w : World) (method url : string)
    (headers : list (string * string)) (data : value) : io Response :=
  let req := {| method := method; url := url; headers := headers; data := data |} in
  match network w req with
  | Responded r => (Ok r, [Http req])
  | Failed kind msg => (Raise (RequestException kind msg), [Http req])
  | Leaked kind msg => (Raise (OtherException kind msg), [Http req])
  end.

Definition requests_post (w : World) := requests_request w "POST".

Definition sys_exit {A} (code : Z) : io A := raise (SystemExit code).

(** The exit status of the process whose main module ended with [r]. *)
Definition exit_status {A} (r : result A) : Z :=
  match r with
  | Ok _ => 0
  | Raise (SystemExit code) => code
  | Raise _ => 1
  end.

(** ** The webhook sender and the intervention fetcher *)

Definition send_teams_message (w : World) (webhook_url : string) (message_payload : value)
    : io (option Response) :=
  let headers := [("Content-Type", "application/json")] in
  try_except_RequestException
    (response <~ requests_post w webhook_url headers message_payload ;;
     lift (raise_for_status response) ;;;
     ret (Some response))
    (fun e =>
     logging ERROR ("Error sending message to Teams: " ++ e) ;;;
     ret None).

Definition _url : string := "https://api.globaltradealert.org/api/v1/data/".

Definition get_interventions (w : World) (api_key : string) : io value :=
  let payload :=
    VDict [
      ("limit", VInt 1);
      ("offset", VInt 0);
      ("request_data", VDict [
        ("implementer", VList [
          VInt 840
        ])
      ])
    ] in
  let headers := [
    ("Content-Type", "application/json");
    ("Authorization", "APIKey " ++ api_key)
  ] in
  response <~ requests_request w "POST" _url headers payload ;;
  if negb (status_code response =? 200)%Z then
    logging ERROR ("Error retrieving interventions: " ++ text response) ;;;
    ret (VList [])
  else lift (json response).

(** ** The [__main__] block *)

(** [not v] for the result of [os.getenv]: [None] or a string. *)
Definition not_set (v : option string) : bool :=
  match v with
  | None => true
  | Some s => String.eqb s ""
  end.

Definition env_str (v : option string) : string :=
  match v with
  | Some s => s
  | None => ""
  end.

(** [bool(response)] for the result of [send_teams_message]. *)
Definition response_truthy (response : option Response) : bool :=
  match response with
  | Some r => ok r
  | None => false
  end.

Definition call {A} (f : func) (args : list value) (body : io A) : io A :=
  emit (Call f args) ;;; body.

(** Lines 269-283: what the block does once it has the two variables. *)
Definition relay (w : World) (WEBHOOK_URL GTA_API_KEY : string) : io unit :=
  interventions <~ call get_interventions_fn [VStr GTA_API_KEY]
                     (get_interventions w GTA_API_KEY) ;;

  n <~ lift (py_len interventions) ;;
  if negb (n =? 0)%Z then
    record <~ lift (py_getitem0 interventions) ;;
    payload <~ call generate_adaptive_card_fn [record]
                 (lift (_generate_adaptive_card record)) ;;
    emit (Print payload) ;;;

    response <~ call send_teams_message_fn [VStr WEBHOOK_URL; payload]
                  (send_teams_message w WEBHOOK_URL payload) ;;

    if response_truthy response then
      logging INFO "Message sent successfully!" ;;;
      logging DEBUG ("Response Text: " ++ match response with Some r => text r | None => "" end)
    else
      logging ERROR "Failed to send message. Check the logs above for details."
  else
    logging INFO "No interventions found.".

(** Lines 252-266, and then the rest of the block. *)
Definition __main__ (w : World) : io unit :=
  let WEBHOOK_URL := getenv w "WEBHOOK_URL" in
  let GTA_API_KEY := getenv w "GTA_API_KEY" in

  (if not_set WEBHOOK_URL then
     logging ERROR "FATAL: The 'WEBHOOK_URL' environment variable is not set." ;;;
     logging ERROR "Set the environment variable in your .env file and try again." ;;;
     sys_exit 1
   else ret tt) ;;;

  (if not_set GTA_API_KEY then
     logging ERROR "FATAL: The 'GTA_API_KEY' environment variable is not set." ;;;
     logging ERROR "Set the environment variable in your .env file and try again." ;;;
     sys_exit 1
   else ret tt) ;;;

  relay w (env_str WEBHOOK_URL) (env_str GTA_API_KEY).

(** ** Reading a card, a record and a trace *)

(** Where the derived values sit in the payload that
    [_generate_adaptive_card] returns. *)
Definition body_item (i : nat) : list step :=
  [Key "attachments"; Idx 0; Key "content"; Key "body"; Idx i].

Definition title_slot : list step := body_item 0 ++ [Key "text"].

Definition status_column (i : nat) (k : string) : list step :=
  body_item 1 ++ [Key "columns"; Idx i; Key "items"; Idx 0; Key k].

Definition evaluation_slot : list step := status_column 0 "text".
Definition status_color_slot : list step := status_column 0 "color".
Definition force_status_slot : list step := status_column 1 "text".
Definition force_color_slot : list step := status_column 1 "color".

Definition fact_slot (i : nat) : list step :=
  body_item 2 ++ [Key "items"; Idx 0; Key "facts"; Idx i; Key "value"].

Definition display_implementer_slot : list step :=
  body_item 3 ++ [Key "items"; Idx 1; Key "text"].
Definition display_affected_slot : list step :=
  body_item 4 ++ [Key "items"; Idx 1; Key "text"].

Definition url_slot : list step :=
  body_item 5 ++ [Key "items"; Idx 0; Key "actions"; Idx 0; Key "url"].

(** The scalar fields of a record that the card shows as they are: the key,
    where its value goes, and the placeholder of an absent one. *)
Definition scalar_fields : list (string * list step * string) :=
  [ ("state_act_title", title_slot, "N/A");
    ("intervention_url", url_slot, "#");
    ("intervention_type", fact_slot 0, "N/A");
    ("mast_chapter", fact_slot 1, "N/A");
    ("implementation_level", fact_slot 2, "N/A");
    ("date_implemented", fact_slot 3, "N/A") ].

Definition all_slots : list (list step) :=
  [ title_slot; evaluation_slot; status_color_slot; force_status_slot;
    force_color_slot; fact_slot 0; fact_slot 1; fact_slot 2; fact_slot 3;
    fact_slot 4; fact_slot 5; display_implementer_slot; display_affected_slot;
    url_slot ].

(** A field of a record, when the record has it. *)
Definition field (data : value) (key : string) : option value :=
  match data with
  | VDict d => lookup key d
  | _ => None
  end.

(** What [data.get(key, default)] reads from a record. *)
Definition getd (data : value) (key : string) (default : value) : value :=
  match field data key with
  | Some v => v
  | None => default
  end.

(** The shape the data model gives to the fields the builder computes with:
    the evaluation is a scalar, a jurisdiction list is a list of objects
    whose name, when there is one, is a string, and the products and the
    sectors are lists.  Any field may be absent; the other fields are not
    constrained. *)
Definition scalar (v : value) : bool :=
  match v with
  | VList _ | VDict _ => false
  | _ => true
  end.

Definition is_list (v : value) : bool :=
  match v with
  | VList _ => true
  | _ => false
  end.

Definition jurisdiction_ok (v : value) : bool :=
  match v with
  | VDict e =>
      match lookup "name" e with
      | None | Some (VStr _) => true
      | Some _ => false
      end
  | _ => false
  end.

Definition jurisdictions_ok (v : value) : bool :=
  match v with
  | VList l => forallb jurisdiction_ok l
  | _ => false
  end.

Definition field_ok (p : value -> bool) (data : value) (key : string) : bool :=
  match field data key with
  | Some v => p v
  | None => true
  end.

Definition record_ok (data : value) : bool :=
  match data with
  | VDict _ =>
      field_ok scalar data "gta_evaluation"
      && field_ok jurisdictions_ok data "affected_jurisdictions"
      && field_ok jurisdictions_ok data "implementing_jurisdictions"
      && field_ok is_list data "affected_products"
      && field_ok is_list data "affected_sectors"
  | _ => false
  end.

(** The jurisdiction objects of a record under [key], none when the field is
    absent, and the name of one of them. *)
Definition jurisdictions (data : value) (key : string) : list value :=
  match field data key with
  | Some (VList l) => l
  | _ => []
  end.

Definition name_of (entry : value) : string :=
  match field entry "name" with
  | Some (VStr s) => s
  | _ => "N/A"
  end.

(** The display string of a list of names, case by case, as the
    specification words it. *)
Definition displays (names : list string) (shown : option value) : Prop :=
  let n := List.length names in
  (5 < n ->
   shown = Some (VStr (String.concat ", " (firstn 5 names)
                         ++ ", and " ++ str_of_Z (Z.of_nat n - 5) ++ " more.")))
  /\ (1 <= n <= 5 -> shown = Some (VStr (String.concat ", " names)))
  /\ (n = 0 -> shown = Some (VStr "N/A")).

Definition func_eqb (f g : func) : bool :=
  match f, g with
  | get_interventions_fn, get_interventions_fn
  | generate_adaptive_card_fn, generate_adaptive_card_fn
  | send_teams_message_fn, send_teams_message_fn => true
  | _, _ => false
  end.

(** The argument lists of the calls of [f] in a trace, in order. *)
Fixpoint calls_of (f : func) (t : list event) : list (list value) :=
  match t with
  | [] => []
  | Call g args :: t' =>
      if func_eqb f g then args :: calls_of f t' else calls_of f t'
  | _ :: t' => calls_of f t'
  end.

(** The calls of [requests] in a trace, in order. *)
Fixpoint http_calls (t : list event) : list Request :=
  match t with
  | [] => []
  | Http req :: t' => req :: http_calls t'
  | _ :: t' => http_calls t'
  end.

(** The documents printed on standard output. *)
Fixpoint printed (t : list event) : list value :=
  match t with
  | [] => []
  | Print doc :: t' => doc :: printed t'
  | _ :: t' => printed t'
  end.

(** The request of the fetcher (section 4.1 of the specification) and the
    request of the sender (section 4.3). *)
Definition fetch_request (api_key : string) : Request :=
  {| method := "POST";
     url := "https://api.globaltradealert.org/api/v1/data/";
     headers := [("Content-Type", "application/json");
                 ("Authorization", "APIKey " ++ api_key)];
     data := VDict [("limit", VInt 1); ("offset", VInt 0);
                    ("request_data", VDict [("implementer", VList [VInt 840])])] |}.

Definition webhook_request (webhook_url : string) (payload : value) : Request :=
  {| method := "POST";
     url := webhook_url;
     headers := [("Content-Type", "application/json")];
     data := payload |}.

(** The log record that ends a run in which the sender returned
    [response]. *)
Definition outcome_log (response : option Response) : event :=
  if response_truthy response then Log INFO "Message sent successfully!"
  else Log ERROR "Failed to send message. Check the logs above for details.".

(** ** Sample runs *)

Module Sample.

Definition env (webhook_url api_key : option string) (name : string) : option string :=
  if String.eqb name "WEBHOOK_URL" then webhook_url
  else if String.eqb name "GTA_API_KEY" then api_key
  else None.

Definition hook : string := "https://teams.example/webhook".
Definition key : string := "k3y".

(** A world whose environment has both variables, whose data API answers
    with [fetch] and whose webhook answers with [send]. *)
Definition world (fetch send : Outcome) : World :=
  {| getenv := env (Some hook) (Some key);
     network := fun req => if String.eqb (url req) _url then fetch else send |}.

Definition response (status : Z) (reason text : string) (json : result value) : Response :=
  {| status_code := status;
     reason := reason;
     response_url := hook;
     text := text;
     json := json |}.

Definition country (name : string) : value := VDict [("id", VInt 1); ("name", VStr name)].

(** A record with seven implementing jurisdictions, one of them without a
    name, and two affected ones. *)
Definition record : value :=
  VDict [
    ("state_act_title", VStr "Tariff order");
    ("gta_evaluation", VStr "Red");
    ("is_in_force", VInt 1);
    ("implementing_jurisdictions",
     VList [country "A"; country "B"; VDict [("id", VInt 3)]; country "D";
            country "E"; country "F"; country "G"]);
    ("affected_jurisdictions", VList [country "X"; country "Y"]);
    ("affected_products", VList [VInt 10; VInt 20; VInt 30])
  ].

Definition ok_200 : Response := response 200 "OK" "1" (Ok (VInt 1)).
Definition not_modified_304 : Response := response 304 "Not Modified" "" (Raise JSONDecodeError).
Definition error_500 : Response := response 500 "Internal Server Error" "boom" (Raise JSONDecodeError).

Definition fetched (records : list value) : Outcome :=
  Responded (response 200 "OK" "[...]" (Ok (VList records))).

Definition unreachable : Outcome := Failed "ConnectionError" "connection refused".

(** The card of [record]. *)
Definition card : value :=
  Eval vm_compute in
    match _generate_adaptive_card record with
    | Ok c => c
    | Raise _ => VNone
    end.

(** Runs: the data API cannot be reached; it answers with no record; it
    answers with two records and the webhook fails; the webhook answers 304;
    the API key is not set. *)
Definition api_down : World := world unreachable (Responded ok_200).
Definition no_records : World := world (fetched []) (Responded ok_200).
Definition api_error : World := world (Responded error_500) (Responded ok_200).
Definition webhook_error : World := world (fetched [record; VInt 3]) (Responded error_500).
Definition webhook_304 : World := world (fetched [record]) (Responded not_modified_304).
Definition webhook_down : World := world (fetched [record]) unreachable.
Definition no_api_key : World :=
  {| getenv := env (Some hook) None; network := fun _ => unreachable |}.

End Sample.

(** ** Further readings of a record, for the builder's domain *)

(** The keys that [_generate_adaptive_card] reads (lines 79-91). *)
Definition consumed_keys : list string :=
  [ "state_act_title"; "intervention_url"; "gta_evaluation";
    "affected_jurisdictions"; "implementing_jurisdictions";
    "intervention_type"; "mast_chapter"; "date_implemented";
    "is_in_force"; "implementation_level"; "affected_products";
    "affected_sectors" ].

Definition is_dict (v : value) : bool :=
  match v with
  | VDict _ => true
  | _ => false
  end.

Definition is_str (v : value) : bool :=
  match v with
  | VStr _ => true
  | _ => false
  end.

(** The values [len] accepts. *)
Definition sized (v : value) : bool :=
  match v with
  | VStr _ | VList _ | VDict _ => true
  | _ => false
  end.

(** What [entry.get('name', 'N/A')] reads from a jurisdiction object. *)
Definition name_value (entry : value) : value := getd entry "name" (VStr "N/A").

(** The names that reach [", ".join]: the first five of more than five,
    all of them otherwise. *)
Definition shown (names : list value) : list value :=
  if (Z.of_nat (List.length names) >? 5)%Z then firstn 5 names else names.

(** A jurisdiction field the builder can render: it can be iterated, its
    items are objects, and the names that are shown are strings. *)
Definition renderable (v : value) : bool :=
  match py_iter v with
  | Ok xs => forallb is_dict xs && forallb is_str (shown (map name_value xs))
  | Raise _ => false
  end.

(** The records on which the builder returns a card. *)
Definition accepts (data : value) : bool :=
  is_dict data
  && renderable (getd data "implementing_jurisdictions" (VList []))
  && renderable (getd data "affected_jurisdictions" (VList []))
  && scalar (getd data "gta_evaluation" (VStr "N/A"))
  && sized (getd data "affected_products" (VList []))
  && sized (getd data "affected_sectors" (VList [])).

(** No record of level [DEBUG] in a trace. *)
Definition no_debug (t : list event) : bool :=
  forallb (fun e => match e with Log DEBUG _ => false | _ => true end) t.

(** The log records of a trace, in order. *)
Fixpoint logged (t : list event) : list (level * string) :=
  match t with
  | [] => []
  | Log lvl msg :: t' => (lvl, msg) :: logged t'
  | _ :: t' => logged t'
  end.

(** More sample records and runs. *)
Module Edge.

(** A record whose title and evaluation are JSON null, with six
    implementing jurisdictions of which the sixth has a number for a
    name. *)
Definition nulls : value :=
  VDict [
    ("state_act_title", VNone);
    ("gta_evaluation", VNone);
    ("implementing_jurisdictions",
     VList [Sample.country "A"; Sample.country "B"; Sample.country "C";
            Sample.country "D"; Sample.country "E"; VDict [("name", VInt 6)]]);
    ("affected_products", VDict [("a", VInt 1); ("b", VInt 2)]);
    ("affected_sectors", VList [VNone; VNone; VNone])
  ].

Definition nulls_card : value :=
  Eval vm_compute in
    match _generate_adaptive_card nulls with
    | Ok c => c
    | Raise _ => VNone
    end.

(** Six implementing jurisdictions again: the first five as in [nulls],
    another sixth. *)
Definition six : value :=
  VDict [
    ("implementing_jurisdictions",
     VList [Sample.country "A"; Sample.country "B"; Sample.country "C";
            Sample.country "D"; Sample.country "E"; Sample.country "F"])
  ].

Definition six_card : value :=
  Eval vm_compute in
    match _generate_adaptive_card six with
    | Ok c => c
    | Raise _ => VNone
    end.

(** [Sample.record] with two keys the builder does not read. *)
Definition annotated : value :=
  match Sample.record with
  | VDict d => VDict (("intervention_id", VInt 77) :: d ++ [("is_official", VBool true)])%list
  | v => v
  end.

(** A record whose product list is JSON null. *)
Definition null_products : value :=
  VDict [("state_act_title", VStr "T"); ("affected_products", VNone)].

(** The data API answers 200 with a body that is not JSON; with a JSON
    object; with JSON null; with a record the builder rejects. *)
Definition not_json : World :=
  Sample.world (Responded (Sample.response 200 "OK" "<html>" (Raise JSONDecodeError)))
    (Responded Sample.ok_200).
Definition wrapped : World :=
  Sample.world
    (Responded (Sample.response 200 "OK" "{...}"
                  (Ok (VDict [("results", VList [Sample.record])]))))
    (Responded Sample.ok_200).
Definition null_body : World :=
  Sample.world (Responded (Sample.response 200 "OK" "null" (Ok VNone)))
    (Responded Sample.ok_200).
Definition bad_record : World :=
  Sample.world (Sample.fetched [null_products; Sample.record]) (Responded Sample.ok_200).

(** The webhook variable holds a URL whose host has an empty label: the
    data API answers with one record, and the post does not get past the
    parsing of the URL, which raises urllib3's [LocationParseError]. *)
Definition bad_hook : string := "http://example..com/webhook".

Definition bad_host : World :=
  {| getenv := Sample.env (Some bad_hook) (Some Sample.key);
     network := fun req =>
       if String.eqb (url req) _url then Sample.fetched [Sample.record]
       else Leaked "LocationParseError"
              "Failed to parse: 'example..com', label empty or too long" |}.

(** Neither variable is set. *)
Definition no_env : World :=
  {| getenv := Sample.env None None; network := fun _ => Sample.unreachable |}.

(** The webhook variable is set to the empty string. *)
Definition empty_hook : World :=
  {| getenv := Sample.env (Some "") (Some Sample.key);
     network := fun _ => Sample.unreachable |}.

End Edge.

(** ** Properties of the builtins *)

Lemma bind_Ok_inv {A B} (m : result A) (f : A -> result B) (b : B) :
  bind m f = Ok b -> exists a, m = Ok a /\ f a = Ok b.
Proof.
  destruct m as [a|e]; simpl; intros H.
  - exists a. split; [reflexivity | exact H].
  - discriminate H.
Qed.

(** Takes a hypothesis [x <- m ;; k = Ok b] apart, bind after bind. *)
Ltac bind_inv H :=
  repeat
    (let x := fresh "x" in
     let E := fresh "E" in
     cbv beta zeta in H;
     apply bind_Ok_inv in H; destruct H as (x & E & H)).

Lemma py_join_strs (sep : string) (names : list string) :
  py_join sep (map VStr names) = Ok (String.concat sep names).
Proof.
  induction names as [|s names IH]; [reflexivity|].
  destruct names as [|s' names]; [reflexivity|].
  change (py_join sep (map VStr (s :: s' :: names)))
    with (rest <- py_join sep (map VStr (s' :: names)) ;; Ok (s ++ sep ++ rest)).
  rewrite IH. reflexivity.
Qed.

Lemma names_of_jurisdictions (l : list value) :
  forallb jurisdiction_ok l = true ->
  mapM (fun i => py_get i "name" (VStr "N/A")) l = Ok (map VStr (map name_of l)).
Proof.
  induction l as [|e l IH]; simpl; intros H; [reflexivity|].
  apply andb_true_iff in H. destruct H as [He Hl].
  rewrite (IH Hl). clear IH Hl.
  destruct e; try discriminate He.
  unfold name_of. simpl in *.
  destruct (lookup "name" d) as [[]|]; try discriminate He; reflexivity.
Qed.

Lemma display_names_strs (names : list string) :
  exists shown,
    display_names (map VStr names) = Ok shown /\ displays names (Some (VStr shown)).
Proof.
  unfold display_names, displays. rewrite length_map.
  destruct (Z.gtb_spec (Z.of_nat (List.length names)) 5) as [Hgt|Hle].
  - rewrite firstn_map, py_join_strs. cbn [bind].
    eexists. split; [reflexivity|].
    repeat split; intros; try lia; reflexivity.
  - destruct names as [|s names].
    + exists "N/A". split; [reflexivity|].
      repeat split; simpl; intros; try lia; reflexivity.
    + change (truthy (VList (map VStr (s :: names)))) with true. cbv iota.
      rewrite py_join_strs. eexists. split; [reflexivity|].
      repeat split; simpl in *; intros; try lia; reflexivity.
Qed.

Lemma field_ok_default (p : value -> bool) (d : list (string * value))
    (key : string) (default : value) :
  field_ok p (VDict d) key = true -> p default = true ->
  p (match lookup key d with Some v => v | None => default end) = true.
Proof.
  unfold field_ok, field. destruct (lookup key d); auto.
Qed.

Lemma jurisdictions_default (d : list (string * value)) (key : string) :
  field_ok jurisdictions_ok (VDict d) key = true ->
  match lookup key d with Some v => v | None => VList [] end
  = VList (jurisdictions (VDict d) key)
  /\ forallb jurisdiction_ok (jurisdictions (VDict d) key) = true.
Proof.
  unfold field_ok, jurisdictions, field.
  destruct (lookup key d) as [v|]; [|split; reflexivity].
  destruct v; simpl; intros H; try discriminate H.
  split; [reflexivity | exact H].
Qed.

Lemma is_list_len (v : value) :
  is_list v = true -> exists l, v = VList l /\ py_len v = Ok (Z.of_nat (List.length l)).
Proof.
  destruct v; simpl; intros H; try discriminate H.
  eexists. split; reflexivity.
Qed.

Lemma scalar_dict_get (d : list (string * value)) (key default : value) :
  scalar key = true -> exists v, dict_get d key default = Ok v.
Proof.
  destruct key; simpl; intros H; try discriminate H; eexists; reflexivity.
Qed.

(** ** The card builder: what it needs to return a card *)

Lemma record_ok_fields (data : value) :
  record_ok data = true ->
  exists d, data = VDict d
    /\ field_ok scalar data "gta_evaluation" = true
    /\ field_ok jurisdictions_ok data "affected_jurisdictions" = true
    /\ field_ok jurisdictions_ok data "implementing_jurisdictions" = true
    /\ field_ok is_list data "affected_products" = true
    /\ field_ok is_list data "affected_sectors" = true.
Proof.
  unfold record_ok. destruct data; try discriminate.
  intros H. repeat (apply andb_true_iff in H; destruct H as [H ?]).
  exists d. repeat split; assumption.
Qed.

(** The builder returns a card for every record of the data model, and the
    two jurisdiction lines of the card are what [display_names] makes of the
    names of the record's jurisdiction objects. *)
Lemma generate_ok (data : value) :
  record_ok data = true ->
  exists card shown_imp shown_aff,
    _generate_adaptive_card data = Ok card
    /\ display_names (map VStr (map name_of (jurisdictions data "implementing_jurisdictions")))
       = Ok shown_imp
    /\ at_path display_implementer_slot card = Some (VStr shown_imp)
    /\ display_names (map VStr (map name_of (jurisdictions data "affected_jurisdictions")))
       = Ok shown_aff
    /\ at_path display_affected_slot card = Some (VStr shown_aff).
Proof.
  intros Hok.
  destruct (record_ok_fields data Hok) as (d & -> & Hev & Haff & Himp & Hprod & Hsec).
  destruct (jurisdictions_default d _ Haff) as [Eaff Faff].
  destruct (jurisdictions_default d _ Himp) as [Eimp Fimp].
  destruct (display_names_strs (map name_of (jurisdictions (VDict d) "implementing_jurisdictions")))
    as (shown_imp & Dimp & _).
  destruct (display_names_strs (map name_of (jurisdictions (VDict d) "affected_jurisdictions")))
    as (shown_aff & Daff & _).
  destruct (scalar_dict_get color_map _ (VStr "default")
              (field_ok_default scalar d "gta_evaluation" (VStr "N/A") Hev eq_refl))
    as (color & Ecolor).
  destruct (is_list_len _ (field_ok_default is_list d "affected_products" (VList []) Hprod eq_refl))
    as (products & _ & Eprod).
  destruct (is_list_len _ (field_ok_default is_list d "affected_sectors" (VList []) Hsec eq_refl))
    as (sectors & _ & Esec).
  eexists. exists shown_imp, shown_aff.
  unfold _generate_adaptive_card.
  cbn [py_get bind].
  rewrite Eimp, Eaff. cbn [py_iter bind].
  rewrite (names_of_jurisdictions _ Fimp), (names_of_jurisdictions _ Faff).
  cbn [bind]. rewrite Dimp, Daff. cbn [bind].
  rewrite Ecolor, Eprod, Esec. cbn [bind].
  repeat split; reflexivity.
Qed.

(** ** The card builder: what a card it returned holds *)

Lemma generate_inv (data card : value) :
  _generate_adaptive_card data = Ok card ->
  (exists d, data = VDict d)
  /\ at_path [Key "type"] card = Some (VStr "message")
  /\ at_path [Key "attachments"; Idx 0; Key "contentType"] card
     = Some (VStr "application/vnd.microsoft.card.adaptive")
  /\ at_path [Key "attachments"; Idx 0; Key "content"; Key "type"] card
     = Some (VStr "AdaptiveCard")
  /\ at_path title_slot card = Some (getd data "state_act_title" (VStr "N/A"))
  /\ at_path url_slot card = Some (getd data "intervention_url" (VStr "#"))
  /\ at_path (fact_slot 0) card = Some (getd data "intervention_type" (VStr "N/A"))
  /\ at_path (fact_slot 1) card = Some (getd data "mast_chapter" (VStr "N/A"))
  /\ at_path (fact_slot 2) card = Some (getd data "implementation_level" (VStr "N/A"))
  /\ at_path (fact_slot 3) card = Some (getd data "date_implemented" (VStr "N/A"))
  /\ at_path evaluation_slot card
     = Some (VStr ("GTA Evaluation: " ++ py_str (getd data "gta_evaluation" (VStr "N/A"))))
  /\ (exists color,
        dict_get color_map (getd data "gta_evaluation" (VStr "N/A")) (VStr "default") = Ok color
        /\ at_path status_color_slot card = Some color)
  /\ at_path force_status_slot card
     = Some (VStr ("Status: " ++ if truthy (getd data "is_in_force" (VInt 0))
                                 then "In Force" else "Not In Force"))
  /\ at_path force_color_slot card
     = Some (VStr (if truthy (getd data "is_in_force" (VInt 0)) then "good" else "attention"))
  /\ (exists n,
        py_len (getd data "affected_products" (VList [])) = Ok n
        /\ at_path (fact_slot 4) card = Some (VStr (str_of_Z n ++ " product(s)")))
  /\ (exists n,
        py_len (getd data "affected_sectors" (VList [])) = Ok n
        /\ at_path (fact_slot 5) card = Some (VStr (str_of_Z n ++ " sector(s)")))
  /\ (exists names shown,
        (xs <- py_iter (getd data "implementing_jurisdictions" (VList [])) ;;
         mapM (fun i => py_get i "name" (VStr "N/A")) xs) = Ok names
        /\ display_names names = Ok shown
        /\ at_path display_implementer_slot card = Some (VStr shown))
  /\ (exists names shown,
        (xs <- py_iter (getd data "affected_jurisdictions" (VList [])) ;;
         mapM (fun j => py_get j "name" (VStr "N/A")) xs) = Ok names
        /\ display_names names = Ok shown
        /\ at_path display_affected_slot card = Some (VStr shown)).
Proof.
  unfold _generate_adaptive_card. intros H.
  destruct data; try discriminate H.
  cbn [py_get bind] in H.
  bind_inv H.
  injection H as <-.
  split; [eexists; reflexivity|].
  repeat (split; [reflexivity|]).
  split; [exists x3; split; [exact E3 | reflexivity]|].
  repeat (split; [reflexivity|]).
  split; [exists x4; split; [exact E4 | reflexivity]|].
  split; [exists x5; split; [exact E5 | reflexivity]|].
  split; [exists x, x1; repeat split; assumption|].
  exists x0, x2; repeat split; assumption.
Qed.

(** ** The card builder: the properties of the specification *)

(** C1.  For every intervention record, the two jurisdiction lines of the
    card are computed from the names of the record's jurisdiction objects
    (["N/A"] for an object without a name): with more than five names, the
    first five joined by [", "] and then [", and {n-5} more."]; with one to
    five names, all of them joined by [", "]; with none, the literal
    ["N/A"]. *)
Theorem display_jurisdictions_spec (data : value) :
  record_ok data = true ->
  exists card,
    _generate_adaptive_card data = Ok card
    /\ displays (map name_of (jurisdictions data "implementing_jurisdictions"))
         (at_path display_implementer_slot card)
    /\ displays (map name_of (jurisdictions data "affected_jurisdictions"))
         (at_path display_affected_slot card).
Proof.
  intros Hok.
  destruct (generate_ok data Hok) as (card & shown_imp & shown_aff & Hcard & Dimp & Simp & Daff & Saff).
  exists card. split; [exact Hcard|].
  rewrite Simp, Saff.
  destruct (display_names_strs (map name_of (jurisdictions data "implementing_jurisdictions")))
    as (s1 & D1 & H1).
  destruct (display_names_strs (map name_of (jurisdictions data "affected_jurisdictions")))
    as (s2 & D2 & H2).
  rewrite Dimp in D1. rewrite Daff in D2.
  injection D1 as <-. injection D2 as <-.
  split; assumption.
Qed.


(** C3.  In every card the builder returns, the colour of the evaluation is
    ["attention"] for the evaluation ["Red"], ["warning"] for ["Amber"],
    ["good"] for ["Green"], and ["default"] for any other value of the field
    and for a record without the field. *)
Theorem status_color_spec (data card : value) :
  _generate_adaptive_card data = Ok card ->
  (field data "gta_evaluation" = Some (VStr "Red") ->
   at_path status_color_slot card = Some (VStr "attention"))
  /\ (field data "gta_evaluation" = Some (VStr "Amber") ->
      at_path status_color_slot card = Some (VStr "warning"))
  /\ (field data "gta_evaluation" = Some (VStr "Green") ->
      at_path status_color_slot card = Some (VStr "good"))
  /\ (field data "gta_evaluation" <> Some (VStr "Red") ->
      field data "gta_evaluation" <> Some (VStr "Amber") ->
      field data "gta_evaluation" <> Some (VStr "Green") ->
      at_path status_color_slot card = Some (VStr "default")).
Proof.
  intros Hcard.
  destruct (generate_inv data card Hcard)
    as (_ & _ & _ & _ & _ & _ & _ & _ & _ & _ & _ & (color & Hget & ->) & _).
  unfold getd in Hget.
  repeat split.
  - intros E. rewrite E in Hget. injection Hget as <-. reflexivity.
  - intros E. rewrite E in Hget. injection Hget as <-. reflexivity.
  - intros E. rewrite E in Hget. injection Hget as <-. reflexivity.
  - intros HR HA HG.
    destruct (field data "gta_evaluation") as [v|].
    + destruct v; simpl in Hget; try discriminate Hget;
        try (injection Hget as <-; reflexivity).
      destruct (String.eqb_spec s "Red") as [E|_]; [exfalso; apply HR; rewrite E; reflexivity|].
      destruct (String.eqb_spec s "Amber") as [E|_]; [exfalso; apply HA; rewrite E; reflexivity|].
      destruct (String.eqb_spec s "Green") as [E|_]; [exfalso; apply HG; rewrite E; reflexivity|].
      injection Hget as <-. reflexivity.
    + injection Hget as <-. reflexivity.
Qed.

(** C4.  In every card the builder returns, the status line and its colour
    depend only on the truthiness of the in-force field: ["In Force"] and
    ["good"] for a truthy value, ["Not In Force"] and ["attention"] for a
    falsy value and for a record without the field. *)
Theorem force_status_spec (data card : value) :
  _generate_adaptive_card data = Ok card ->
  (forall v, field data "is_in_force" = Some v -> truthy v = true ->
     at_path force_status_slot card = Some (VStr ("Status: " ++ "In Force"))
     /\ at_path force_color_slot card = Some (VStr "good"))
  /\ (forall v, field data "is_in_force" = Some v -> truthy v = false ->
        at_path force_status_slot card = Some (VStr ("Status: " ++ "Not In Force"))
        /\ at_path force_color_slot card = Some (VStr "attention"))
  /\ (field data "is_in_force" = None ->
      at_path force_status_slot card = Some (VStr ("Status: " ++ "Not In Force"))
      /\ at_path force_color_slot card = Some (VStr "attention")).
Proof.
  intros Hcard.
  destruct (generate_inv data card Hcard)
    as (_ & _ & _ & _ & _ & _ & _ & _ & _ & _ & _ & _ & -> & -> & _).
  unfold getd.
  repeat split; intros;
    repeat match goal with
           | H : field data "is_in_force" = _ |- _ => rewrite H
           | H : truthy _ = _ |- _ => rewrite H
           end; reflexivity.
Qed.

(** ** The webhook sender and the intervention fetcher: properties *)

Lemma append_nonempty (a b rest : string) (c : ascii) :
  String.eqb (a ++ String c b ++ rest) "" = false.
Proof. destruct a; reflexivity. Qed.

Lemma raise_for_status_error (r : Response) :
  (400 <= status_code r < 600)%Z ->
  raise_for_status r = Raise (RequestException "HTTPError" (http_error_msg r)).
Proof.
  intros Hst. unfold raise_for_status, http_error_msg.
  destruct (Z.leb_spec 400 (status_code r)); [|lia].
  destruct (Z.ltb_spec (status_code r) 500); cbn [andb].
  - rewrite append_nonempty. reflexivity.
  - destruct (Z.leb_spec 500 (status_code r)); [|lia].
    destruct (Z.ltb_spec (status_code r) 600); [|lia].
    cbn [andb]. rewrite append_nonempty. reflexivity.
Qed.

Lemma raise_for_status_pass (r : Response) :
  ~ (400 <= status_code r < 600)%Z -> raise_for_status r = Ok tt.
Proof.
  intros Hst. unfold raise_for_status, http_error_msg.
  destruct (Z.leb_spec 400 (status_code r)); cbn [andb]; [|].
  - destruct (Z.ltb_spec (status_code r) 500); [lia|]. cbn [andb].
    destruct (Z.leb_spec 500 (status_code r)); [|lia].
    destruct (Z.ltb_spec (status_code r) 600); [lia|]. reflexivity.
  - destruct (Z.leb_spec 500 (status_code r)); [lia|]. reflexivity.
Qed.

Lemma send_teams_message_responded (w : World) (webhook_url : string) (payload : value)
    (r : Response) :
  network w (webhook_request webhook_url payload) = Responded r ->
  send_teams_message w webhook_url payload
  = match raise_for_status r with
    | Ok _ => (Ok (Some r), [Http (webhook_request webhook_url payload)])
    | Raise _ =>
        (Ok None,
         [Http (webhook_request webhook_url payload);
          Log ERROR ("Error sending message to Teams: " ++ http_error_msg r)])
    end.
Proof.
  intros Hnet.
  unfold send_teams_message, requests_post, requests_request.
  change {| method := "POST"; url := webhook_url;
            headers := [("Content-Type", "application/json")]; data := payload |}
    with (webhook_request webhook_url payload).
  rewrite Hnet. cbn [iobind]. unfold raise_for_status.
  destruct (negb (String.eqb (http_error_msg r) "")); reflexivity.
Qed.

Lemma send_teams_message_failed (w : World) (webhook_url : string) (payload : value)
    (kind msg : string) :
  network w (webhook_request webhook_url payload) = Failed kind msg ->
  send_teams_message w webhook_url payload
  = (Ok None,
     [Http (webhook_request webhook_url payload);
      Log ERROR ("Error sending message to Teams: " ++ msg)]).
Proof.
  intros Hnet.
  unfold send_teams_message, requests_post, requests_request.
  change {| method := "POST"; url := webhook_url;
            headers := [("Content-Type", "application/json")]; data := payload |}
    with (webhook_request webhook_url payload).
  rewrite Hnet. reflexivity.
Qed.

Lemma send_teams_message_leaked (w : World) (webhook_url : string) (payload : value)
    (kind msg : string) :
  network w (webhook_request webhook_url payload) = Leaked kind msg ->
  send_teams_message w webhook_url payload
  = (Raise (OtherException kind msg), [Http (webhook_request webhook_url payload)]).
Proof.
  intros Hnet.
  unfold send_teams_message, requests_post, requests_request.
  change {| method := "POST"; url := webhook_url;
            headers := [("Content-Type", "application/json")]; data := payload |}
    with (webhook_request webhook_url payload).
  rewrite Hnet. reflexivity.
Qed.

(** C5, as the sender is written.  When the webhook answers with a status
    outside 400..599 -- a 2xx status among them -- the sender returns the
    response and logs nothing.  When the webhook answers with a status from
    400 to 599, or the call ends in an exception of the [RequestException]
    family, the sender catches it, logs the error with its message and
    returns [None] rather than raising. *)
Theorem send_teams_message_spec (w : World) (webhook_url : string) (payload : value) :
  let req := webhook_request webhook_url payload in
  (forall r, network w req = Responded r ->
     ~ (400 <= status_code r < 600)%Z ->
     send_teams_message w webhook_url payload = (Ok (Some r), [Http req]))
  /\ (forall r, network w req = Responded r ->
        (200 <= status_code r < 300)%Z ->
        send_teams_message w webhook_url payload = (Ok (Some r), [Http req]))
  /\ (forall r, network w req = Responded r ->
        (400 <= status_code r < 600)%Z ->
        send_teams_message w webhook_url payload
        = (Ok None,
           [Http req; Log ERROR ("Error sending message to Teams: " ++ http_error_msg r)]))
  /\ (forall kind msg, network w req = Failed kind msg ->
        send_teams_message w webhook_url payload
        = (Ok None, [Http req; Log ERROR ("Error sending message to Teams: " ++ msg)])).
Proof.
  intros req. subst req.
  assert (Hpass : forall r,
             network w (webhook_request webhook_url payload) = Responded r ->
             ~ (400 <= status_code r < 600)%Z ->
             send_teams_message w webhook_url payload
             = (Ok (Some r), [Http (webhook_request webhook_url payload)])).
  { intros r Hnet Hst.
    rewrite (send_teams_message_responded _ _ _ _ Hnet), (raise_for_status_pass _ Hst).
    reflexivity. }
  assert (Herr : forall r,
             network w (webhook_request webhook_url payload) = Responded r ->
             (400 <= status_code r < 600)%Z ->
             send_teams_message w webhook_url payload
             = (Ok None,
                [Http (webhook_request webhook_url payload);
                 Log ERROR ("Error sending message to Teams: " ++ http_error_msg r)])).
  { intros r Hnet Hst.
    rewrite (send_teams_message_responded _ _ _ _ Hnet), (raise_for_status_error _ Hst).
    reflexivity. }
  split; [exact Hpass|].
  split; [intros r Hnet Hst; apply Hpass; [exact Hnet | lia]|].
  split; [exact Herr|].
  intros kind msg Hnet. exact (send_teams_message_failed _ _ _ kind msg Hnet).
Qed.

Lemma get_interventions_responded (w : World) (api_key : string) (r : Response) :
  network w (fetch_request api_key) = Responded r ->
  get_interventions w api_key
  = if (status_code r =? 200)%Z then (json r, [Http (fetch_request api_key)])
    else (Ok (VList []),
          [Http (fetch_request api_key);
           Log ERROR ("Error retrieving interventions: " ++ text r)]).
Proof.
  intros Hnet.
  unfold get_interventions, requests_request.
  change {| method := "POST"; url := _url;
            headers := [("Content-Type", "application/json");
                        ("Authorization", "APIKey " ++ api_key)];
            data := VDict [("limit", VInt 1); ("offset", VInt 0);
                           ("request_data", VDict [("implementer", VList [VInt 840])])] |}
    with (fetch_request api_key).
  rewrite Hnet. cbn [iobind].
  destruct (status_code r =? 200)%Z; cbn [negb]; [|reflexivity].
  unfold lift. destruct (json r); reflexivity.
Qed.

Lemma get_interventions_failed (w : World) (api_key kind msg : string) :
  network w (fetch_request api_key) = Failed kind msg ->
  get_interventions w api_key
  = (Raise (RequestException kind msg), [Http (fetch_request api_key)]).
Proof.
  intros Hnet.
  unfold get_interventions, requests_request.
  change {| method := "POST"; url := _url;
            headers := [("Content-Type", "application/json");
                        ("Authorization", "APIKey " ++ api_key)];
            data := VDict [("limit", VInt 1); ("offset", VInt 0);
                           ("request_data", VDict [("implementer", VList [VInt 840])])] |}
    with (fetch_request api_key).
  rewrite Hnet. reflexivity.
Qed.

Lemma get_interventions_leaked (w : World) (api_key kind msg : string) :
  network w (fetch_request api_key) = Leaked kind msg ->
  get_interventions w api_key
  = (Raise (OtherException kind msg), [Http (fetch_request api_key)]).
Proof.
  intros Hnet.
  unfold get_interventions, requests_request.
  change {| method := "POST"; url := _url;
            headers := [("Content-Type", "application/json");
                        ("Authorization", "APIKey " ++ api_key)];
            data := VDict [("limit", VInt 1); ("offset", VInt 0);
                           ("request_data", VDict [("implementer", VList [VInt 840])])] |}
    with (fetch_request api_key).
  rewrite Hnet. reflexivity.
Qed.

(** C6.  When the data API answers with a status other than 200, the
    fetcher logs the body of the response as an error and returns the empty
    list, without raising; when it answers with status 200, the fetcher
    returns the decoded JSON body, so the list of records the body holds. *)
Theorem get_interventions_spec (w : World) (api_key : string) (r : Response) :
  network w (fetch_request api_key) = Responded r ->
  (status_code r <> 200%Z ->
   get_interventions w api_key
   = (Ok (VList []),
      [Http (fetch_request api_key);
       Log ERROR ("Error retrieving interventions: " ++ text r)]))
  /\ (status_code r = 200%Z ->
      get_interventions w api_key = (json r, [Http (fetch_request api_key)])
      /\ forall records, json r = Ok (VList records) ->
           fst (get_interventions w api_key) = Ok (VList records)).
Proof.
  intros Hnet. rewrite (get_interventions_responded _ _ _ Hnet).
  split; intros Hst.
  - apply Z.eqb_neq in Hst. rewrite Hst. reflexivity.
  - rewrite Hst. cbn [Z.eqb Pos.eqb]. split; [reflexivity|].
    intros records Hjson. exact Hjson.
Qed.

(** ** The [__main__] block: properties *)

Lemma calls_of_app (f : func) (t t' : list event) :
  calls_of f (t ++ t')%list = (calls_of f t ++ calls_of f t')%list.
Proof.
  induction t as [|e t IH]; [reflexivity|].
  destruct e; simpl; try exact IH.
  destruct (func_eqb f f0); simpl; rewrite IH; reflexivity.
Qed.

Lemma http_calls_app (t t' : list event) :
  http_calls (t ++ t')%list = (http_calls t ++ http_calls t')%list.
Proof.
  induction t as [|e t IH]; [reflexivity|].
  destruct e; simpl; rewrite IH; reflexivity.
Qed.

Lemma printed_app (t t' : list event) :
  printed (t ++ t')%list = (printed t ++ printed t')%list.
Proof.
  induction t as [|e t IH]; [reflexivity|].
  destruct e; simpl; rewrite IH; reflexivity.
Qed.

Lemma iobind_ret_l {A B} (a : A) (f : A -> io B) : iobind (ret a) f = f a.
Proof. unfold iobind, ret. destruct (f a). reflexivity. Qed.

(** The fetcher and the sender each make one HTTP call, and neither enters
    a function of the program nor prints. *)
Lemma get_interventions_trace (w : World) (api_key : string) :
  http_calls (snd (get_interventions w api_key)) = [fetch_request api_key]
  /\ (forall f, calls_of f (snd (get_interventions w api_key)) = [])
  /\ printed (snd (get_interventions w api_key)) = [].
Proof.
  destruct (network w (fetch_request api_key)) as [r|kind msg|kind msg] eqn:Hnet.
  - rewrite (get_interventions_responded _ _ _ Hnet).
    destruct (status_code r =? 200)%Z; repeat split.
  - rewrite (get_interventions_failed _ _ kind msg Hnet). repeat split.
  - rewrite (get_interventions_leaked _ _ kind msg Hnet). repeat split.
Qed.

Lemma send_teams_message_trace (w : World) (webhook_url : string) (payload : value) :
  http_calls (snd (send_teams_message w webhook_url payload))
  = [webhook_request webhook_url payload]
  /\ (forall f, calls_of f (snd (send_teams_message w webhook_url payload)) = [])
  /\ printed (snd (send_teams_message w webhook_url payload)) = [].
Proof.
  destruct (network w (webhook_request webhook_url payload)) as [r|kind msg|kind msg] eqn:Hnet.
  - rewrite (send_teams_message_responded _ _ _ _ Hnet).
    destruct (raise_for_status r); repeat split.
  - rewrite (send_teams_message_failed _ _ _ kind msg Hnet). repeat split.
  - rewrite (send_teams_message_leaked _ _ _ kind msg Hnet). repeat split.
Qed.

(** What the sender returns is [None] or a response that is [ok]; what it
    raises is an exception that the library let through. *)
Lemma send_teams_message_result (w : World) (webhook_url : string) (payload : value) :
  fst (send_teams_message w webhook_url payload) = Ok None
  \/ (exists r, fst (send_teams_message w webhook_url payload) = Ok (Some r) /\ ok r = true)
  \/ (exists kind msg,
        network w (webhook_request webhook_url payload) = Leaked kind msg
        /\ fst (send_teams_message w webhook_url payload) = Raise (OtherException kind msg)).
Proof.
  destruct (network w (webhook_request webhook_url payload)) as [r|kind msg|kind msg] eqn:Hnet.
  - rewrite (send_teams_message_responded _ _ _ _ Hnet).
    destruct (raise_for_status r) eqn:Hst.
    + right. left. exists r. split; [reflexivity|]. unfold ok. rewrite Hst. reflexivity.
    + left. reflexivity.
  - left. rewrite (send_teams_message_failed _ _ _ kind msg Hnet). reflexivity.
  - right. right. exists kind, msg.
    rewrite (send_teams_message_leaked _ _ _ kind msg Hnet). split; reflexivity.
Qed.

Lemma main_configured (w : World) :
  not_set (getenv w "WEBHOOK_URL") = false ->
  not_set (getenv w "GTA_API_KEY") = false ->
  __main__ w = relay w (env_str (getenv w "WEBHOOK_URL")) (env_str (getenv w "GTA_API_KEY")).
Proof.
  intros Hurl Hkey. unfold __main__. cbv zeta. rewrite Hurl, Hkey.
  rewrite !iobind_ret_l. reflexivity.
Qed.

Lemma main_not_configured (w : World) :
  not_set (getenv w "WEBHOOK_URL") = true \/ not_set (getenv w "GTA_API_KEY") = true ->
  fst (__main__ w) = Raise (SystemExit 1)
  /\ http_calls (snd (__main__ w)) = []
  /\ (forall f, calls_of f (snd (__main__ w)) = [])
  /\ printed (snd (__main__ w)) = [].
Proof.
  intros H. unfold __main__. cbv zeta.
  destruct (not_set (getenv w "WEBHOOK_URL")) eqn:Hurl.
  - repeat split.
  - destruct H as [H|H]; [discriminate H|]. rewrite H.
    rewrite iobind_ret_l. repeat split.
Qed.

Lemma relay_fetch_raises (w : World) (webhook_url api_key : string) (e : exn) :
  fst (get_interventions w api_key) = Raise e ->
  relay w webhook_url api_key
  = (Raise e, Call get_interventions_fn [VStr api_key] :: snd (get_interventions w api_key)).
Proof.
  unfold relay, call. destruct (get_interventions w api_key) as [r t]. simpl.
  intros ->. reflexivity.
Qed.

Lemma relay_empty (w : World) (webhook_url api_key : string) :
  fst (get_interventions w api_key) = Ok (VList []) ->
  relay w webhook_url api_key
  = (Ok tt,
     Call get_interventions_fn [VStr api_key]
       :: snd (get_interventions w api_key) ++ [Log INFO "No interventions found."])%list.
Proof.
  unfold relay, call. destruct (get_interventions w api_key) as [r t]. simpl.
  intros ->. reflexivity.
Qed.

Lemma relay_first (w : World) (webhook_url api_key : string) (record card : value)
    (rest : list value) :
  fst (get_interventions w api_key) = Ok (VList (record :: rest)) ->
  _generate_adaptive_card record = Ok card ->
  (exists response,
     fst (send_teams_message w webhook_url card) = Ok response
     /\ relay w webhook_url api_key
        = (Ok tt,
           Call get_interventions_fn [VStr api_key]
             :: snd (get_interventions w api_key)
             ++ [Call generate_adaptive_card_fn [record];
                 Print card;
                 Call send_teams_message_fn [VStr webhook_url; card]]
             ++ snd (send_teams_message w webhook_url card)
             ++ [outcome_log response])%list)
  \/ (exists kind msg,
        network w (webhook_request webhook_url card) = Leaked kind msg
        /\ relay w webhook_url api_key
           = (Raise (OtherException kind msg),
              Call get_interventions_fn [VStr api_key]
                :: snd (get_interventions w api_key)
                ++ [Call generate_adaptive_card_fn [record];
                    Print card;
                    Call send_teams_message_fn [VStr webhook_url; card]]
                ++ snd (send_teams_message w webhook_url card))%list).
Proof.
  intros Hget Hcard.
  unfold relay, call. destruct (get_interventions w api_key) as [r t]. simpl in Hget.
  subst r. cbn [iobind emit lift py_len py_getitem0 fst snd].
  replace (negb (Z.of_nat (List.length (record :: rest)) =? 0)%Z) with true
    by (symmetry; apply negb_true_iff, Z.eqb_neq; simpl List.length; lia).
  rewrite Hcard. cbn [iobind emit lift fst snd].
  destruct (send_teams_message_result w webhook_url card)
    as [Hres|[(resp & Hres & Hok)|(kind & msg & Hnet & Hres)]];
    destruct (send_teams_message w webhook_url card) as [r2 t2]; simpl in Hres; subst r2.
  - left. exists None. split; reflexivity.
  - left. exists (Some resp). split; [reflexivity|].
    unfold outcome_log. simpl. rewrite Hok. simpl. reflexivity.
  - right. exists kind, msg. split; [exact Hnet|]. reflexivity.
Qed.

(** The trace of a run that reaches the sender: what comes after the
    sender's own events is at most one log record. *)
Lemma relay_first_trace (w : World) (webhook_url api_key : string) (record card : value)
    (rest : list value) :
  fst (get_interventions w api_key) = Ok (VList (record :: rest)) ->
  _generate_adaptive_card record = Ok card ->
  exists logs,
    snd (relay w webhook_url api_key)
    = (Call get_interventions_fn [VStr api_key]
         :: snd (get_interventions w api_key)
         ++ [Call generate_adaptive_card_fn [record];
             Print card;
             Call send_teams_message_fn [VStr webhook_url; card]]
         ++ snd (send_teams_message w webhook_url card)
         ++ logs)%list
    /\ (forall f, calls_of f logs = [])
    /\ http_calls logs = []
    /\ printed logs = [].
Proof.
  intros Hget Hcard.
  destruct (relay_first w webhook_url _ _ _ _ Hget Hcard)
    as [(response & _ & ->)|(kind & msg & _ & ->)].
  - exists [outcome_log response]. split; [reflexivity|].
    unfold outcome_log. destruct (response_truthy response); repeat split.
  - exists []. rewrite app_nil_r. repeat split.
Qed.

Lemma relay_first_raises (w : World) (webhook_url api_key : string) (record : value)
    (rest : list value) (e : exn) :
  fst (get_interventions w api_key) = Ok (VList (record :: rest)) ->
  _generate_adaptive_card record = Raise e ->
  relay w webhook_url api_key
  = (Raise e,
     Call get_interventions_fn [VStr api_key]
       :: snd (get_interventions w api_key)
       ++ [Call generate_adaptive_card_fn [record]])%list.
Proof.
  intros Hget Hcard.
  unfold relay, call. destruct (get_interventions w api_key) as [r t]. simpl in Hget.
  subst r. cbn [iobind emit lift py_len py_getitem0 fst snd].
  replace (negb (Z.of_nat (List.length (record :: rest)) =? 0)%Z) with true
    by (symmetry; apply negb_true_iff, Z.eqb_neq; simpl List.length; lia).
  rewrite Hcard. reflexivity.
Qed.

Ltac count_events :=
  unfold logging; simpl;
  repeat (rewrite ?calls_of_app, ?http_calls_app, ?length_app; simpl);
  repeat match goal with
         | H : forall f, calls_of f _ = [] |- _ => rewrite !H
         | H : http_calls _ = _ |- _ => rewrite !H
         end;
  simpl; repeat split; try lia; eauto.

(** Whatever the data API and the webhook do, a run enters the builder at
    most once and the sender at most once, and its HTTP calls are the fetch
    and then at most one post to the webhook. *)
Lemma relay_bounds (w : World) (webhook_url api_key : string) :
  length (calls_of send_teams_message_fn (snd (relay w webhook_url api_key))) <= 1
  /\ length (calls_of generate_adaptive_card_fn (snd (relay w webhook_url api_key))) <= 1
  /\ (http_calls (snd (relay w webhook_url api_key)) = [fetch_request api_key]
      \/ exists card,
           http_calls (snd (relay w webhook_url api_key))
           = [fetch_request api_key; webhook_request webhook_url card]).
Proof.
  destruct (get_interventions_trace w api_key) as (Hh & Hc & _).
  unfold relay, call.
  destruct (get_interventions w api_key) as [r t1]. simpl in Hh, Hc.
  destruct r as [v|e]; cbn [iobind emit lift fst snd]; [|count_events].
  destruct (py_len v) as [n|e]; cbn [iobind emit lift fst snd]; [|count_events].
  destruct (negb (n =? 0)%Z); [|count_events].
  destruct (py_getitem0 v) as [record|e]; cbn [iobind emit lift fst snd]; [|count_events].
  destruct (_generate_adaptive_card record) as [card|e];
    cbn [iobind emit lift fst snd]; [|count_events].
  destruct (send_teams_message_trace w webhook_url card) as (Hh2 & Hc2 & _).
  destruct (send_teams_message w webhook_url card) as [r2 t2]. simpl in Hh2, Hc2.
  destruct r2 as [response|e]; cbn [iobind emit lift fst snd]; [|count_events].
  destruct (response_truthy response); count_events.
Qed.

Lemma main_bounds (w : World) :
  length (calls_of send_teams_message_fn (snd (__main__ w))) <= 1
  /\ length (calls_of generate_adaptive_card_fn (snd (__main__ w))) <= 1
  /\ (http_calls (snd (__main__ w)) = []
      \/ http_calls (snd (__main__ w)) = [fetch_request (env_str (getenv w "GTA_API_KEY"))]
      \/ exists card,
           http_calls (snd (__main__ w))
           = [fetch_request (env_str (getenv w "GTA_API_KEY"));
              webhook_request (env_str (getenv w "WEBHOOK_URL")) card]).
Proof.
  destruct (not_set (getenv w "WEBHOOK_URL")) eqn:Hurl;
    [|destruct (not_set (getenv w "GTA_API_KEY")) eqn:Hkey].
  - destruct (main_not_configured w (or_introl Hurl)) as (_ & -> & Hc & _).
    rewrite !Hc. simpl. repeat split; try lia. left. reflexivity.
  - destruct (main_not_configured w (or_intror Hkey)) as (_ & -> & Hc & _).
    rewrite !Hc. simpl. repeat split; try lia. left. reflexivity.
  - rewrite (main_configured w Hurl Hkey).
    destruct (relay_bounds w (env_str (getenv w "WEBHOOK_URL"))
                (env_str (getenv w "GTA_API_KEY"))) as (Hs & Hg & Hh).
    repeat split; try assumption. right. exact Hh.
Qed.

(** C7, as the block is written.  The process exits with code 1 when
    [WEBHOOK_URL] or [GTA_API_KEY] is missing or empty, and then no network
    call is made.  When both are set and the fetch returns a list of records
    that is empty, the process exits with code 0; so it does when the list
    starts with a record of the data model and the post to the webhook ends
    in a response or in an exception of the [RequestException] family,
    the send having failed or not. *)
Theorem exit_status_spec (w : World) :
  (not_set (getenv w "WEBHOOK_URL") = true \/ not_set (getenv w "GTA_API_KEY") = true ->
   exit_status (fst (__main__ w)) = 1%Z /\ http_calls (snd (__main__ w)) = [])
  /\ (not_set (getenv w "WEBHOOK_URL") = false ->
      not_set (getenv w "GTA_API_KEY") = false ->
      forall records,
        fst (get_interventions w (env_str (getenv w "GTA_API_KEY"))) = Ok (VList records) ->
        match records with
        | [] => True
        | record :: _ =>
            record_ok record = true
            /\ forall card kind msg,
                 _generate_adaptive_card record = Ok card ->
                 network w (webhook_request (env_str (getenv w "WEBHOOK_URL")) card)
                 <> Leaked kind msg
        end ->
        exit_status (fst (__main__ w)) = 0%Z).
Proof.
  split.
  - intros H. destruct (main_not_configured w H) as (-> & -> & _).
    split; reflexivity.
  - intros Hurl Hkey records Hget Hrec.
    rewrite (main_configured w Hurl Hkey).
    destruct records as [|record rest].
    + rewrite (relay_empty _ _ _ Hget). reflexivity.
    + destruct Hrec as [Hrec Hpost].
      destruct (generate_ok record Hrec) as (card & _ & _ & Hcard & _).
      destruct (relay_first w (env_str (getenv w "WEBHOOK_URL")) _ _ _ _ Hget Hcard)
        as [(response & _ & ->)|(kind & msg & Hnet & _)].
      * reflexivity.
      * exfalso. exact (Hpost card kind msg Hcard Hnet).
Qed.

(** C8.  In a run in which the fetch returns the empty list, the builder is
    not entered, the sender is not entered, the only HTTP call is the one of
    the fetch, nothing is printed, the run logs ["No interventions found."]
    and the process exits with code 0. *)
Theorem no_interventions_run (w : World) :
  not_set (getenv w "WEBHOOK_URL") = false ->
  not_set (getenv w "GTA_API_KEY") = false ->
  fst (get_interventions w (env_str (getenv w "GTA_API_KEY"))) = Ok (VList []) ->
  calls_of generate_adaptive_card_fn (snd (__main__ w)) = []
  /\ calls_of send_teams_message_fn (snd (__main__ w)) = []
  /\ http_calls (snd (__main__ w)) = [fetch_request (env_str (getenv w "GTA_API_KEY"))]
  /\ printed (snd (__main__ w)) = []
  /\ In (Log INFO "No interventions found.") (snd (__main__ w))
  /\ fst (__main__ w) = Ok tt
  /\ exit_status (fst (__main__ w)) = 0%Z.
Proof.
  intros Hurl Hkey Hget.
  rewrite (main_configured w Hurl Hkey), (relay_empty _ _ _ Hget).
  destruct (get_interventions_trace w (env_str (getenv w "GTA_API_KEY"))) as (Hh & Hc & Hp).
  cbn [fst snd].
  repeat split.
  - simpl. rewrite calls_of_app, Hc. reflexivity.
  - simpl. rewrite calls_of_app, Hc. reflexivity.
  - simpl. rewrite http_calls_app, Hh. reflexivity.
  - simpl. rewrite printed_app, Hp. reflexivity.
  - right. apply in_or_app. right. left. reflexivity.
Qed.

(** C9.  No run enters the sender more than once, and the HTTP calls of a
    run are none, or the fetch, or the fetch and then one post to the
    webhook.  In a run in which the fetch returns a non-empty list, the
    builder is entered once, on the first record of the list, and on no
    other record; the card of that record is what is printed and what is
    sent, in the one call of the sender, and the HTTP calls are the fetch
    and the post of that card; the first record has a card when it is a
    record of the data model. *)
Theorem first_record_only (w : World) :
  (length (calls_of send_teams_message_fn (snd (__main__ w))) <= 1
   /\ (http_calls (snd (__main__ w)) = []
       \/ http_calls (snd (__main__ w))
          = [fetch_request (env_str (getenv w "GTA_API_KEY"))]
       \/ exists card,
            http_calls (snd (__main__ w))
            = [fetch_request (env_str (getenv w "GTA_API_KEY"));
               webhook_request (env_str (getenv w "WEBHOOK_URL")) card]))
  /\ (forall record rest,
        not_set (getenv w "WEBHOOK_URL") = false ->
        not_set (getenv w "GTA_API_KEY") = false ->
        fst (get_interventions w (env_str (getenv w "GTA_API_KEY")))
        = Ok (VList (record :: rest)) ->
        calls_of generate_adaptive_card_fn (snd (__main__ w)) = [[record]]
        /\ (forall card,
              _generate_adaptive_card record = Ok card ->
              printed (snd (__main__ w)) = [card]
              /\ calls_of send_teams_message_fn (snd (__main__ w))
                 = [[VStr (env_str (getenv w "WEBHOOK_URL")); card]]
              /\ http_calls (snd (__main__ w))
                 = [fetch_request (env_str (getenv w "GTA_API_KEY"));
                    webhook_request (env_str (getenv w "WEBHOOK_URL")) card])
        /\ (record_ok record = true ->
            exists card, _generate_adaptive_card record = Ok card)).
Proof.
  split.
  - destruct (main_bounds w) as (Hs & _ & Hh). split; assumption.
  - intros record rest Hurl Hkey Hget.
    rewrite (main_configured w Hurl Hkey).
    destruct (get_interventions_trace w (env_str (getenv w "GTA_API_KEY"))) as (Hh & Hc & Hp).
    split; [|split].
    + destruct (_generate_adaptive_card record) as [card|e] eqn:Hcard.
      * destruct (relay_first_trace w (env_str (getenv w "WEBHOOK_URL")) _ _ _ _ Hget Hcard)
          as (logs & -> & Hc3 & _).
        destruct (send_teams_message_trace w (env_str (getenv w "WEBHOOK_URL")) card)
          as (_ & Hc2 & _).
        simpl.
        rewrite calls_of_app, Hc. simpl. rewrite calls_of_app, Hc2, Hc3.
        reflexivity.
      * rewrite (relay_first_raises w _ _ _ _ e Hget Hcard).
        simpl. rewrite calls_of_app, Hc. reflexivity.
    + intros card Hcard.
      destruct (relay_first_trace w (env_str (getenv w "WEBHOOK_URL")) _ _ _ _ Hget Hcard)
        as (logs & -> & Hc3 & Hh3 & Hp3).
      destruct (send_teams_message_trace w (env_str (getenv w "WEBHOOK_URL")) card)
        as (Hh2 & Hc2 & Hp2).
      repeat split; simpl;
        rewrite ?calls_of_app, ?http_calls_app, ?printed_app; simpl;
        rewrite ?calls_of_app, ?http_calls_app, ?printed_app;
        rewrite ?Hc, ?Hh, ?Hp, ?Hc2, ?Hh2, ?Hp2, ?Hc3, ?Hh3, ?Hp3;
        reflexivity.
    + intros Hrec.
      destruct (generate_ok record Hrec) as (card & _ & _ & Hcard & _).
      exists card. exact Hcard.
Qed.

(** C10.  An exception of the [requests] library raised by the fetcher's
    POST is not caught: it comes out of [get_interventions], and out of the
    [__main__] block, whose run ends there, after the fetch and before any
    log record, card or webhook call. *)
Theorem fetch_exception_propagates (w : World) (kind msg : string) :
  not_set (getenv w "WEBHOOK_URL") = false ->
  not_set (getenv w "GTA_API_KEY") = false ->
  network w (fetch_request (env_str (getenv w "GTA_API_KEY"))) = Failed kind msg ->
  get_interventions w (env_str (getenv w "GTA_API_KEY"))
  = (Raise (RequestException kind msg),
     [Http (fetch_request (env_str (getenv w "GTA_API_KEY")))])
  /\ __main__ w
     = (Raise (RequestException kind msg),
        [Call get_interventions_fn [VStr (env_str (getenv w "GTA_API_KEY"))];
         Http (fetch_request (env_str (getenv w "GTA_API_KEY")))])
  /\ exit_status (fst (__main__ w)) <> 0%Z.
Proof.
  intros Hurl Hkey Hnet.
  pose proof (get_interventions_failed w _ kind msg Hnet) as Hget.
  assert (Hmain : __main__ w
                  = (Raise (RequestException kind msg),
                     [Call get_interventions_fn [VStr (env_str (getenv w "GTA_API_KEY"))];
                      Http (fetch_request (env_str (getenv w "GTA_API_KEY")))])).
  { rewrite (main_configured w Hurl Hkey).
    rewrite (relay_fetch_raises w _ _ (RequestException kind msg)); rewrite Hget; reflexivity. }
  split; [exact Hget|]. split; [exact Hmain|].
  rewrite Hmain. simpl. discriminate.
Qed.

(** ** The properties at work on the sample runs *)

Lemma display_jurisdictions_spec_sample :
  record_ok Sample.record = true
  /\ exists card,
       _generate_adaptive_card Sample.record = Ok card
       /\ displays (map name_of (jurisdictions Sample.record "implementing_jurisdictions"))
            (at_path display_implementer_slot card)
       /\ displays (map name_of (jurisdictions Sample.record "affected_jurisdictions"))
            (at_path display_affected_slot card).
Proof.
  split; [reflexivity|].
  apply (display_jurisdictions_spec Sample.record). reflexivity.
Defined.


Lemma status_color_spec_sample :
  _generate_adaptive_card Sample.record = Ok Sample.card
  /\ field Sample.record "gta_evaluation" = Some (VStr "Red")
  /\ at_path status_color_slot Sample.card = Some (VStr "attention").
Proof.
  split; [reflexivity|]. split; [reflexivity|].
  apply (proj1 (status_color_spec Sample.record Sample.card eq_refl)). reflexivity.
Defined.

Lemma force_status_spec_sample :
  _generate_adaptive_card Sample.record = Ok Sample.card
  /\ field Sample.record "is_in_force" = Some (VInt 1)
  /\ at_path force_status_slot Sample.card = Some (VStr "Status: In Force")
  /\ at_path force_color_slot Sample.card = Some (VStr "good").
Proof.
  split; [reflexivity|]. split; [reflexivity|].
  apply (proj1 (force_status_spec Sample.record Sample.card eq_refl) (VInt 1));
    reflexivity.
Defined.

(** The sender on a webhook that answers 304: the status is not a 2xx one,
    and the sender returns the response, not [None]. *)
Lemma send_teams_message_304 :
  network Sample.webhook_304 (webhook_request Sample.hook Sample.card)
  = Responded Sample.not_modified_304
  /\ ~ (200 <= status_code Sample.not_modified_304 < 300)%Z
  /\ send_teams_message Sample.webhook_304 Sample.hook Sample.card
     = (Ok (Some Sample.not_modified_304),
        [Http (webhook_request Sample.hook Sample.card)])
  /\ fst (send_teams_message Sample.webhook_304 Sample.hook Sample.card) <> Ok None.
Proof.
  split; [reflexivity|].
  split; [simpl; lia|].
  split; [reflexivity|].
  discriminate.
Qed.

Lemma send_teams_message_spec_sample :
  send_teams_message Sample.webhook_error Sample.hook Sample.card
  = (Ok None,
     [Http (webhook_request Sample.hook Sample.card);
      Log ERROR ("Error sending message to Teams: " ++ http_error_msg Sample.error_500)])
  /\ send_teams_message Sample.webhook_down Sample.hook Sample.card
     = (Ok None,
        [Http (webhook_request Sample.hook Sample.card);
         Log ERROR "Error sending message to Teams: connection refused"])
  /\ send_teams_message Sample.no_records Sample.hook Sample.card
     = (Ok (Some Sample.ok_200), [Http (webhook_request Sample.hook Sample.card)]).
Proof.
  split; [|split].
  - apply (proj1 (proj2 (proj2 (send_teams_message_spec Sample.webhook_error
                                   Sample.hook Sample.card)))).
    + reflexivity.
    + simpl. lia.
  - apply (proj2 (proj2 (proj2 (send_teams_message_spec Sample.webhook_down
                                   Sample.hook Sample.card)))
             "ConnectionError" "connection refused").
    reflexivity.
  - apply (proj1 (proj2 (send_teams_message_spec Sample.no_records
                           Sample.hook Sample.card))).
    + reflexivity.
    + simpl. lia.
Defined.

Lemma get_interventions_spec_sample :
  network Sample.api_error (fetch_request Sample.key) = Responded Sample.error_500
  /\ status_code Sample.error_500 <> 200%Z
  /\ get_interventions Sample.api_error Sample.key
     = (Ok (VList []),
        [Http (fetch_request Sample.key);
         Log ERROR "Error retrieving interventions: boom"]).
Proof.
  split; [reflexivity|]. split; [discriminate|].
  apply (proj1 (get_interventions_spec Sample.api_error Sample.key Sample.error_500 eq_refl)).
  discriminate.
Defined.

(** A run in which both variables are set and the data API cannot be
    reached: the process does not exit with code 0. *)
Lemma exit_status_api_down :
  getenv Sample.api_down "WEBHOOK_URL" = Some Sample.hook
  /\ getenv Sample.api_down "GTA_API_KEY" = Some Sample.key
  /\ fst (__main__ Sample.api_down)
     = Raise (RequestException "ConnectionError" "connection refused")
  /\ exit_status (fst (__main__ Sample.api_down)) = 1%Z
  /\ exit_status (fst (__main__ Sample.api_down)) <> 0%Z.
Proof.
  repeat split. discriminate.
Qed.

Lemma exit_status_spec_sample :
  (not_set (getenv Sample.no_api_key "GTA_API_KEY") = true
   /\ exit_status (fst (__main__ Sample.no_api_key)) = 1%Z
   /\ http_calls (snd (__main__ Sample.no_api_key)) = [])
  /\ (fst (get_interventions Sample.webhook_error Sample.key)
      = Ok (VList [Sample.record; VInt 3])
      /\ exit_status (fst (__main__ Sample.webhook_error)) = 0%Z).
Proof.
  split.
  - split; [reflexivity|].
    apply (proj1 (exit_status_spec Sample.no_api_key)). right. reflexivity.
  - split; [reflexivity|].
    apply (proj2 (exit_status_spec Sample.webhook_error) eq_refl eq_refl
             [Sample.record; VInt 3]); [reflexivity|].
    split; [reflexivity|].
    intros card kind msg Hcard. injection Hcard as <-. discriminate.
Defined.

Lemma no_interventions_run_sample :
  fst (get_interventions Sample.no_records Sample.key) = Ok (VList [])
  /\ calls_of generate_adaptive_card_fn (snd (__main__ Sample.no_records)) = []
  /\ calls_of send_teams_message_fn (snd (__main__ Sample.no_records)) = []
  /\ http_calls (snd (__main__ Sample.no_records)) = [fetch_request Sample.key]
  /\ printed (snd (__main__ Sample.no_records)) = []
  /\ In (Log INFO "No interventions found.") (snd (__main__ Sample.no_records))
  /\ fst (__main__ Sample.no_records) = Ok tt
  /\ exit_status (fst (__main__ Sample.no_records)) = 0%Z.
Proof.
  split; [reflexivity|].
  apply (no_interventions_run Sample.no_records); reflexivity.
Defined.

Lemma first_record_only_sample :
  fst (get_interventions Sample.webhook_error Sample.key)
  = Ok (VList [Sample.record; VInt 3])
  /\ calls_of generate_adaptive_card_fn (snd (__main__ Sample.webhook_error))
     = [[Sample.record]]
  /\ printed (snd (__main__ Sample.webhook_error)) = [Sample.card]
  /\ calls_of send_teams_message_fn (snd (__main__ Sample.webhook_error))
     = [[VStr Sample.hook; Sample.card]]
  /\ http_calls (snd (__main__ Sample.webhook_error))
     = [fetch_request Sample.key; webhook_request Sample.hook Sample.card].
Proof.
  split; [reflexivity|].
  destruct (proj2 (first_record_only Sample.webhook_error) Sample.record [VInt 3]
              eq_refl eq_refl eq_refl) as (Hcalls & Hsent & _).
  split; [exact Hcalls|].
  exact (Hsent Sample.card eq_refl).
Defined.

Lemma fetch_exception_propagates_sample :
  network Sample.api_down (fetch_request Sample.key)
  = Failed "ConnectionError" "connection refused"
  /\ get_interventions Sample.api_down Sample.key
     = (Raise (RequestException "ConnectionError" "connection refused"),
        [Http (fetch_request Sample.key)])
  /\ __main__ Sample.api_down
     = (Raise (RequestException "ConnectionError" "connection refused"),
        [Call get_interventions_fn [VStr Sample.key]; Http (fetch_request Sample.key)])
  /\ exit_status (fst (__main__ Sample.api_down)) <> 0%Z.
Proof.
  split; [reflexivity|].
  apply (fetch_exception_propagates Sample.api_down
           "ConnectionError" "connection refused"); reflexivity.
Defined.

(** ** The card builder: its domain, its exceptions, what it ignores *)

Lemma bind_Raise_inv {A B} (m : result A) (f : A -> result B) (e : exn) :
  bind m f = Raise e -> m = Raise e \/ exists a, m = Ok a /\ f a = Raise e.
Proof.
  destruct m as [a|e']; simpl; intros H.
  - right. exists a. split; [reflexivity | exact H].
  - left. injection H as <-. reflexivity.
Qed.

Lemma mapM_names_ok (xs : list value) :
  forallb is_dict xs = true ->
  mapM (fun i => py_get i "name" (VStr "N/A")) xs = Ok (map name_value xs).
Proof.
  induction xs as [|x xs IH]; simpl; intros H; [reflexivity|].
  apply andb_true_iff in H. destruct H as [Hx Hxs].
  rewrite (IH Hxs). destruct x; try discriminate Hx. reflexivity.
Qed.

Lemma mapM_names_inv (xs names : list value) :
  mapM (fun i => py_get i "name" (VStr "N/A")) xs = Ok names ->
  forallb is_dict xs = true /\ names = map name_value xs.
Proof.
  revert names. induction xs as [|x xs IH]; simpl; intros names H.
  - injection H as <-. split; reflexivity.
  - bind_inv H. injection H as <-.
    destruct (IH _ E0) as [Hxs ->].
    destruct x; try discriminate E. injection E as <-.
    split; [exact Hxs | reflexivity].
Qed.

Lemma mapM_names_raise (xs : list value) (e : exn) :
  mapM (fun i => py_get i "name" (VStr "N/A")) xs = Raise e -> e = AttributeError.
Proof.
  induction xs as [|x xs IH]; simpl; intros H; [discriminate H|].
  destruct x; simpl in H; try (injection H as <-; reflexivity);
    destruct (mapM (fun i => py_get i "name" (VStr "N/A")) xs);
    simpl in H; try discriminate H; injection H as <-; apply IH; reflexivity.
Qed.

Lemma strs_map (xs : list value) :
  forallb is_str xs = true -> exists names, xs = map VStr names.
Proof.
  induction xs as [|x xs IH]; simpl; intros H.
  - exists []. reflexivity.
  - apply andb_true_iff in H. destruct H as [Hx Hxs].
    destruct (IH Hxs) as (names & ->).
    destruct x; try discriminate Hx. exists (s :: names). reflexivity.
Qed.

Lemma py_join_inv (sep : string) (xs : list value) (s : string) :
  py_join sep xs = Ok s -> forallb is_str xs = true.
Proof.
  revert s. induction xs as [|x xs IH]; intros s H; [reflexivity|].
  destruct x; try discriminate H.
  destruct xs as [|y xs]; [reflexivity|].
  change (py_join sep (VStr s0 :: y :: xs))
    with (rest <- py_join sep (y :: xs) ;; Ok (s0 ++ sep ++ rest)) in H.
  bind_inv H. simpl. exact (IH _ E).
Qed.

Lemma py_join_raise (sep : string) (xs : list value) (e : exn) :
  py_join sep xs = Raise e -> e = TypeError.
Proof.
  induction xs as [|x xs IH]; intros H; [discriminate H|].
  destruct x; try (injection H as <-; reflexivity).
  destruct xs as [|y xs]; [discriminate H|].
  change (py_join sep (VStr s :: y :: xs))
    with (rest <- py_join sep (y :: xs) ;; Ok (s ++ sep ++ rest)) in H.
  destruct (py_join sep (y :: xs)); simpl in H; [discriminate H|].
  injection H as <-. apply IH. reflexivity.
Qed.

Lemma display_names_shown (names : list value) :
  (exists s, display_names names = Ok s) <-> forallb is_str (shown names) = true.
Proof.
  unfold display_names, shown.
  destruct (Z.of_nat (List.length names) >? 5)%Z.
  - split.
    + intros (s & H). bind_inv H. exact (py_join_inv _ _ _ E).
    + intros H. destruct (strs_map _ H) as (strs & ->).
      rewrite py_join_strs. eexists. reflexivity.
  - destruct names as [|x names].
    + split; [reflexivity | intros _; eexists; reflexivity].
    + change (truthy (VList (x :: names))) with true. cbv iota. split.
      * intros (s & H). exact (py_join_inv _ _ _ H).
      * intros H. destruct (strs_map _ H) as (strs & ->).
        rewrite py_join_strs. eexists. reflexivity.
Qed.

Lemma display_names_raise (names : list value) (e : exn) :
  display_names names = Raise e -> e = TypeError.
Proof.
  unfold display_names.
  destruct (Z.of_nat (List.length names) >? 5)%Z.
  - intros H. apply bind_Raise_inv in H.
    destruct H as [H|(a & _ & H)]; [exact (py_join_raise _ _ _ H) | discriminate H].
  - destruct (truthy (VList names)); [apply py_join_raise | discriminate].
Qed.

Lemma renderable_names (v : value) :
  renderable v = true <->
  exists names s,
    (xs <- py_iter v ;; mapM (fun i => py_get i "name" (VStr "N/A")) xs) = Ok names
    /\ display_names names = Ok s.
Proof.
  unfold renderable. split.
  - destruct (py_iter v) as [xs|e]; [|discriminate].
    intros H. apply andb_true_iff in H. destruct H as [Hd Hs].
    apply display_names_shown in Hs. destruct Hs as (s & Hs).
    exists (map name_value xs), s. cbn [bind].
    split; [exact (mapM_names_ok xs Hd) | exact Hs].
  - intros (names & s & H & Hs). bind_inv H. rewrite E.
    destruct (mapM_names_inv _ _ H) as [Hd ->].
    rewrite Hd. apply display_names_shown. exists s. exact Hs.
Qed.

(** X1.  The builder returns a card exactly on the records it [accepts]: an
    object whose two jurisdiction fields can be iterated, hold objects only
    and have strings for the names that are shown, whose evaluation is
    hashable and whose product and sector fields have a length. *)
Theorem builder_domain (data : value) :
  (exists card, _generate_adaptive_card data = Ok card) <-> accepts data = true.
Proof.
  unfold accepts. split.
  - intros (card & Hcard).
    destruct (generate_inv data card Hcard)
      as ((d & ->) & _ & _ & _ & _ & _ & _ & _ & _ & _ & _ & (color & Hcolor & _) & _ & _
          & (np & Hp & _) & (ns & Hs & _) & (n1 & s1 & Hn1 & Hd1 & _) & (n2 & s2 & Hn2 & Hd2 & _)).
    cbn [is_dict andb].
    repeat (apply andb_true_iff; split).
    + apply renderable_names. exists n1, s1. split; assumption.
    + apply renderable_names. exists n2, s2. split; assumption.
    + destruct (getd (VDict d) "gta_evaluation" (VStr "N/A")); try reflexivity;
        discriminate Hcolor.
    + destruct (getd (VDict d) "affected_products" (VList [])); try reflexivity;
        discriminate Hp.
    + destruct (getd (VDict d) "affected_sectors" (VList [])); try reflexivity;
        discriminate Hs.
  - intros H.
    repeat (apply andb_true_iff in H; destruct H as [H ?]).
    destruct data; try discriminate H.
    match goal with
    | H1 : renderable (getd _ "implementing_jurisdictions" _) = true,
      H2 : renderable (getd _ "affected_jurisdictions" _) = true,
      H3 : scalar _ = true, H4 : sized _ = true, H5 : sized _ = true |- _ =>
        apply renderable_names in H1; destruct H1 as (n1 & s1 & Hn1 & Hd1);
        apply renderable_names in H2; destruct H2 as (n2 & s2 & Hn2 & Hd2);
        destruct (scalar_dict_get color_map _ (VStr "default") H3) as (color & Hcolor);
        assert (Hp : exists n, py_len (getd (VDict d) "affected_products" (VList [])) = Ok n)
          by (destruct (getd (VDict d) "affected_products" (VList []));
              try discriminate H4; eexists; reflexivity);
        assert (Hs : exists n, py_len (getd (VDict d) "affected_sectors" (VList [])) = Ok n)
          by (destruct (getd (VDict d) "affected_sectors" (VList []));
              try discriminate H5; eexists; reflexivity)
    end.
    destruct Hp as (np & Hp). destruct Hs as (ns & Hs).
    unfold getd, field in Hn1, Hn2, Hcolor, Hp, Hs.
    unfold _generate_adaptive_card. cbn [py_get bind].
    rewrite Hn1, Hn2. cbn [bind]. rewrite Hd1, Hd2. cbn [bind].
    rewrite Hcolor, Hp, Hs. cbn [bind].
    eexists. reflexivity.
Qed.

Lemma generate_raise_kinds (data : value) (e : exn) :
  _generate_adaptive_card data = Raise e -> e = AttributeError \/ e = TypeError.
Proof.
  unfold _generate_adaptive_card. intros H.
  destruct data; try (injection H as <-; left; reflexivity).
  cbn [py_get bind] in H.
  apply bind_Raise_inv in H. destruct H as [H|(n1 & _ & H)].
  { apply bind_Raise_inv in H. destruct H as [H|(xs & _ & H)].
    - right. destruct (match lookup "implementing_jurisdictions" d with
                       | Some v => v | None => VList [] end);
        try discriminate H; injection H as <-; reflexivity.
    - left. exact (mapM_names_raise _ _ H). }
  apply bind_Raise_inv in H. destruct H as [H|(n2 & _ & H)].
  { apply bind_Raise_inv in H. destruct H as [H|(xs & _ & H)].
    - right. destruct (match lookup "affected_jurisdictions" d with
                       | Some v => v | None => VList [] end);
        try discriminate H; injection H as <-; reflexivity.
    - left. exact (mapM_names_raise _ _ H). }
  apply bind_Raise_inv in H. destruct H as [H|(s1 & _ & H)];
    [right; exact (display_names_raise _ _ H)|].
  apply bind_Raise_inv in H. destruct H as [H|(s2 & _ & H)];
    [right; exact (display_names_raise _ _ H)|].
  apply bind_Raise_inv in H. destruct H as [H|(color & _ & H)].
  { right. destruct (match lookup "gta_evaluation" d with
                     | Some v => v | None => VStr "N/A" end);
      try discriminate H; injection H as <-; reflexivity. }
  cbv zeta in H.
  apply bind_Raise_inv in H. destruct H as [H|(np & _ & H)].
  { right. destruct (match lookup "affected_products" d with
                     | Some v => v | None => VList [] end);
      try discriminate H; injection H as <-; reflexivity. }
  apply bind_Raise_inv in H. destruct H as [H|(ns & _ & H)].
  { right. destruct (match lookup "affected_sectors" d with
                     | Some v => v | None => VList [] end);
      try discriminate H; injection H as <-; reflexivity. }
  discriminate H.
Qed.

(** X2.  The builder raises nothing but [AttributeError] and [TypeError]:
    [AttributeError] on a record that is not an object, and [TypeError] on
    an object whose jurisdiction fields are absent or empty lists. *)
Theorem builder_exceptions (data : value) (e : exn) :
  _generate_adaptive_card data = Raise e ->
  (e = AttributeError \/ e = TypeError)
  /\ (is_dict data = false -> e = AttributeError)
  /\ (jurisdictions data "implementing_jurisdictions" = [] ->
      jurisdictions data "affected_jurisdictions" = [] ->
      field_ok is_list data "implementing_jurisdictions" = true ->
      field_ok is_list data "affected_jurisdictions" = true ->
      is_dict data = true -> e = TypeError).
Proof.
  intros H. split; [exact (generate_raise_kinds data e H)|]. split.
  - intros Hd. destruct data; try discriminate Hd;
      unfold _generate_adaptive_card in H; simpl in H; injection H as <-; reflexivity.
  - intros Himp Haff Limp Laff Hd.
    destruct data; try discriminate Hd.
    unfold jurisdictions, field_ok, field in Himp, Haff, Limp, Laff.
    unfold _generate_adaptive_card in H. cbn [py_get bind] in H.
    destruct (lookup "implementing_jurisdictions" d) as [[]|];
      try discriminate Limp; subst;
      destruct (lookup "affected_jurisdictions" d) as [[]|];
      try discriminate Laff; subst;
      cbn [py_iter mapM bind display_names] in H; simpl in H;
      repeat match type of H with
             | bind ?m _ = Raise _ =>
                 apply bind_Raise_inv in H;
                 destruct H as [H|(? & _ & H)];
                 [match type of H with
                  | dict_get _ ?v _ = _ => destruct v; try discriminate H
                  | py_len ?v = _ => destruct v; try discriminate H
                  end; injection H as <-; reflexivity|]
             end;
      discriminate H.
Qed.

(** X3.  The builder reads twelve keys and nothing else: two records that
    agree on them get the same card, or the same exception. *)
Theorem unread_keys_ignored (d d' : list (string * value)) :
  (forall key, In key consumed_keys -> lookup key d = lookup key d') ->
  _generate_adaptive_card (VDict d) = _generate_adaptive_card (VDict d').
Proof.
  intros H. unfold _generate_adaptive_card. cbn [py_get bind].
  repeat match goal with
         | |- context [lookup ?k d] => rewrite (H k) by (simpl; auto 20)
         end.
  reflexivity.
Qed.

(** X4.  A scalar field that is present is shown as it is, whatever its
    value: the placeholder stands for an absent key only, so a JSON null
    under the key reaches the card as null. *)
Theorem present_fields_verbatim (data card : value) :
  _generate_adaptive_card data = Ok card ->
  forall key slot placeholder v,
    In (key, slot, placeholder) scalar_fields ->
    field data key = Some v ->
    at_path slot card = Some v.
Proof.
  intros Hcard key slot placeholder v Hin Hfield.
  destruct (generate_inv data card Hcard)
    as (_ & _ & _ & _ & Ti & Ur & F0 & F1 & F2 & F3 & _).
  simpl in Hin.
  repeat (destruct Hin as [Heq|Hin];
          [injection Heq as <- <- <-;
           match goal with
           | H : at_path ?s card = Some (getd data ?k _) |- at_path ?s card = _ =>
               rewrite H; unfold getd; rewrite Hfield; reflexivity
           end|]).
  destruct Hin.
Qed.

(** X5.  The two counts of the card are the lengths of the product list and
    of the sector list, whatever the lists hold. *)
Theorem counts_are_lengths (data card : value) :
  _generate_adaptive_card data = Ok card ->
  (forall l, field data "affected_products" = Some (VList l) ->
     at_path (fact_slot 4) card
     = Some (VStr (str_of_Z (Z.of_nat (List.length l)) ++ " product(s)")))
  /\ (forall l, field data "affected_sectors" = Some (VList l) ->
        at_path (fact_slot 5) card
        = Some (VStr (str_of_Z (Z.of_nat (List.length l)) ++ " sector(s)"))).
Proof.
  intros Hcard.
  destruct (generate_inv data card Hcard)
    as (_ & _ & _ & _ & _ & _ & _ & _ & _ & _ & _ & _ & _ & _
        & (np & Lp & F4) & (ns & Ls & F5) & _).
  unfold getd in Lp, Ls.
  split; intros l Hl.
  - rewrite Hl in Lp. injection Lp as <-. exact F4.
  - rewrite Hl in Ls. injection Ls as <-. exact F5.
Qed.

Lemma display_names_tail (names names' : list value) :
  List.length names = List.length names' ->
  5 < List.length names ->
  firstn 5 names = firstn 5 names' ->
  display_names names = display_names names'.
Proof.
  intros Hlen Hgt Hfirst. unfold display_names.
  rewrite <- Hlen, <- Hfirst.
  destruct (Z.gtb_spec (Z.of_nat (List.length names)) 5); [reflexivity | lia].
Qed.

(** X6.  With more than five implementing jurisdictions, the line of the
    card depends on the names of the first five and on the count only: two
    records with as many jurisdictions and the same first five names show
    the same line, whatever the other entries are. *)
Theorem display_hides_tail (data data' card card' : value) (l l' : list value) :
  _generate_adaptive_card data = Ok card ->
  _generate_adaptive_card data' = Ok card' ->
  field data "implementing_jurisdictions" = Some (VList l) ->
  field data' "implementing_jurisdictions" = Some (VList l') ->
  List.length l = List.length l' ->
  5 < List.length l ->
  map name_value (firstn 5 l) = map name_value (firstn 5 l') ->
  at_path display_implementer_slot card = at_path display_implementer_slot card'.
Proof.
  intros Hcard Hcard' Hl Hl' Hlen Hgt Hfirst.
  destruct (generate_inv data card Hcard)
    as (_ & _ & _ & _ & _ & _ & _ & _ & _ & _ & _ & _ & _ & _ & _ & _
        & (names & shown1 & Hn & Hd & ->) & _).
  destruct (generate_inv data' card' Hcard')
    as (_ & _ & _ & _ & _ & _ & _ & _ & _ & _ & _ & _ & _ & _ & _ & _
        & (names' & shown2 & Hn' & Hd' & ->) & _).
  unfold getd in Hn, Hn'. rewrite Hl in Hn. rewrite Hl' in Hn'.
  cbn [py_iter bind] in Hn, Hn'.
  destruct (mapM_names_inv _ _ Hn) as [_ ->].
  destruct (mapM_names_inv _ _ Hn') as [_ ->].
  rewrite (display_names_tail (map name_value l) (map name_value l')) in Hd.
  - rewrite Hd in Hd'. injection Hd' as <-. reflexivity.
  - rewrite !length_map. exact Hlen.
  - rewrite length_map. exact Hgt.
  - rewrite !firstn_map. exact Hfirst.
Qed.

(** Replaces the computed strings of a card by variables. *)
Ltac abstract_leaves H :=
  repeat match type of H with
         | context [append ?a (py_str ?v)] =>
             let t := fresh "t" in
             let E := fresh "E" in
             remember (append a (py_str v)) as t eqn:E in H; clear E
         | context [append ?a (if truthy ?v then ?b else ?c)] =>
             let t := fresh "t" in
             let E := fresh "E" in
             remember (append a (if truthy v then b else c)) as t eqn:E in H; clear E
         | context [if truthy ?v then ?b else ?c] =>
             let t := fresh "t" in
             let E := fresh "E" in
             remember (if truthy v then b else c) as t eqn:E in H; clear E
         | context [append (str_of_Z ?n) ?b] =>
             let t := fresh "t" in
             let E := fresh "E" in
             remember (append (str_of_Z n) b) as t eqn:E in H; clear E
         end.

Ltac use_slot Hs s :=
  let S := fresh "S" in
  pose proof (Hs s ltac:(simpl; auto 20)) as S;
  vm_compute in S; injection S; clear S; intros; subst.

(** X7.  A card is a fixed template with fourteen slots: two cards of the
    builder that agree on the slots are the same document, so nothing else
    in a card depends on the record. *)
Theorem card_is_its_slots (data data' card card' : value) :
  _generate_adaptive_card data = Ok card ->
  _generate_adaptive_card data' = Ok card' ->
  (forall slot, In slot all_slots -> at_path slot card = at_path slot card') ->
  card = card'.
Proof.
  unfold _generate_adaptive_card. intros H H' Hs.
  bind_inv H. bind_inv H'. cbv beta zeta in H, H'.
  abstract_leaves H. abstract_leaves H'.
  injection H as <-. injection H' as <-.
  clear - Hs.
  use_slot Hs title_slot. use_slot Hs evaluation_slot. use_slot Hs status_color_slot.
  use_slot Hs force_status_slot. use_slot Hs force_color_slot.
  use_slot Hs (fact_slot 0). use_slot Hs (fact_slot 1). use_slot Hs (fact_slot 2).
  use_slot Hs (fact_slot 3). use_slot Hs (fact_slot 4). use_slot Hs (fact_slot 5).
  use_slot Hs display_implementer_slot. use_slot Hs display_affected_slot.
  use_slot Hs url_slot.
  reflexivity.
Qed.

(** ** The sender, the fetcher and the [__main__] block: edge behaviour *)

(** X8.  What the sender returns tells what the webhook did: a response is
    returned only when the webhook answered with it and its status is
    outside 400..599, and such a response is truthy; [None] is returned only
    when the webhook answered with a status from 400 to 599 or the call
    raised. *)
Theorem send_teams_message_converse (w : World) (webhook_url : string) (payload : value) :
  (forall r, fst (send_teams_message w webhook_url payload) = Ok (Some r) ->
     network w (webhook_request webhook_url payload) = Responded r
     /\ ~ (400 <= status_code r < 600)%Z
     /\ response_truthy (Some r) = true)
  /\ (fst (send_teams_message w webhook_url payload) = Ok None ->
      (exists r, network w (webhook_request webhook_url payload) = Responded r
                 /\ (400 <= status_code r < 600)%Z)
      \/ exists kind msg,
           network w (webhook_request webhook_url payload) = Failed kind msg).
Proof.
  destruct (network w (webhook_request webhook_url payload)) as [r0|kind msg|kind msg] eqn:Hnet.
  - rewrite (send_teams_message_responded _ _ _ _ Hnet).
    destruct (Z_le_dec 400 (status_code r0)) as [Hlo|Hlo];
      [destruct (Z_lt_dec (status_code r0) 600) as [Hhi|Hhi]|].
    + rewrite (raise_for_status_error r0 (conj Hlo Hhi)). split.
      * intros r H. discriminate H.
      * intros _. left. exists r0. split; [reflexivity | lia].
    + assert (Hst : ~ (400 <= status_code r0 < 600)%Z) by lia.
      rewrite (raise_for_status_pass r0 Hst). split.
      * intros r H. injection H as <-.
        split; [reflexivity|]. split; [exact Hst|].
        unfold response_truthy, ok. rewrite (raise_for_status_pass r0 Hst). reflexivity.
      * intros H. discriminate H.
    + assert (Hst : ~ (400 <= status_code r0 < 600)%Z) by lia.
      rewrite (raise_for_status_pass r0 Hst). split.
      * intros r H. injection H as <-.
        split; [reflexivity|]. split; [exact Hst|].
        unfold response_truthy, ok. rewrite (raise_for_status_pass r0 Hst). reflexivity.
      * intros H. discriminate H.
  - rewrite (send_teams_message_failed _ _ _ kind msg Hnet). split.
    + intros r H. discriminate H.
    + intros _. right. exists kind, msg. reflexivity.
  - rewrite (send_teams_message_leaked _ _ _ kind msg Hnet). split.
    + intros r H. discriminate H.
    + intros H. discriminate H.
Qed.

(** X16.  The sender raises exactly when the post raises an exception
    outside the [RequestException] family: line 40 does not catch it, so it
    comes out of the sender as it is, with no log record. *)
Theorem send_teams_message_raises (w : World) (webhook_url : string) (payload : value) :
  (forall kind msg,
     network w (webhook_request webhook_url payload) = Leaked kind msg ->
     send_teams_message w webhook_url payload
     = (Raise (OtherException kind msg), [Http (webhook_request webhook_url payload)]))
  /\ (forall e,
        fst (send_teams_message w webhook_url payload) = Raise e ->
        exists kind msg,
          network w (webhook_request webhook_url payload) = Leaked kind msg
          /\ e = OtherException kind msg).
Proof.
  split.
  - intros kind msg Hnet. exact (send_teams_message_leaked _ _ _ kind msg Hnet).
  - intros e H.
    destruct (send_teams_message_result w webhook_url payload)
      as [Hres|[(r & Hres & _)|(kind & msg & Hnet & Hres)]];
      rewrite Hres in H; try discriminate H.
    injection H as <-. exists kind, msg. split; [exact Hnet | reflexivity].
Qed.

(** X9.  Neither the fetcher nor the sender retries: each invocation of
    either calls the [requests] library exactly once, the fetcher with the
    fixed query and the key in its [Authorization] header, the sender with
    the payload and the URL it was given, whatever the call comes to.  (How
    many requests the library puts on the wire for one call, when it follows
    redirects, is not counted.) *)
Theorem one_library_call_each (w : World) (api_key webhook_url : string) (payload : value) :
  http_calls (snd (get_interventions w api_key)) = [fetch_request api_key]
  /\ http_calls (snd (send_teams_message w webhook_url payload))
     = [webhook_request webhook_url payload].
Proof.
  split.
  - exact (proj1 (get_interventions_trace w api_key)).
  - exact (proj1 (send_teams_message_trace w webhook_url payload)).
Qed.

Lemma get_interventions_value_trace (w : World) (api_key : string) (v : value) :
  fst (get_interventions w api_key) = Ok v ->
  v <> VList [] ->
  snd (get_interventions w api_key) = [Http (fetch_request api_key)].
Proof.
  destruct (network w (fetch_request api_key)) as [r|kind msg|kind msg] eqn:Hnet.
  - rewrite (get_interventions_responded _ _ _ Hnet).
    destruct (status_code r =? 200)%Z; simpl; intros H Hne; [reflexivity|].
    injection H as <-. contradiction Hne. reflexivity.
  - rewrite (get_interventions_failed _ _ kind msg Hnet). discriminate.
  - rewrite (get_interventions_leaked _ _ kind msg Hnet). discriminate.
Qed.

(** X10.  A response with status 200 whose body is not JSON is not
    contained: the exception of [response.json()] comes out of the fetcher
    and ends the run before any card is built or sent. *)
Theorem fetch_body_not_json (w : World) (r : Response) (e : exn) :
  not_set (getenv w "WEBHOOK_URL") = false ->
  not_set (getenv w "GTA_API_KEY") = false ->
  network w (fetch_request (env_str (getenv w "GTA_API_KEY"))) = Responded r ->
  status_code r = 200%Z ->
  json r = Raise e ->
  get_interventions w (env_str (getenv w "GTA_API_KEY"))
  = (Raise e, [Http (fetch_request (env_str (getenv w "GTA_API_KEY")))])
  /\ __main__ w
     = (Raise e,
        [Call get_interventions_fn [VStr (env_str (getenv w "GTA_API_KEY"))];
         Http (fetch_request (env_str (getenv w "GTA_API_KEY")))]).
Proof.
  intros Hurl Hkey Hnet Hst Hjson.
  assert (Hget : get_interventions w (env_str (getenv w "GTA_API_KEY"))
                 = (Raise e, [Http (fetch_request (env_str (getenv w "GTA_API_KEY")))])).
  { rewrite (get_interventions_responded _ _ _ Hnet), Hst, Hjson. reflexivity. }
  split; [exact Hget|].
  rewrite (main_configured w Hurl Hkey).
  rewrite (relay_fetch_raises w _ _ e); rewrite Hget; reflexivity.
Qed.

(** X11.  When the decoded body is not a list: a non-empty JSON object ends
    the run with [KeyError] at [interventions[0]]; null, a boolean or a
    number ends it with [TypeError] at [len]; an empty object or an empty
    string counts as no intervention.  In none of these runs is the builder
    or the sender entered. *)
Theorem body_not_a_list (w : World) (v : value) :
  not_set (getenv w "WEBHOOK_URL") = false ->
  not_set (getenv w "GTA_API_KEY") = false ->
  fst (get_interventions w (env_str (getenv w "GTA_API_KEY"))) = Ok v ->
  ((exists kv d, v = VDict (kv :: d)) -> fst (__main__ w) = Raise KeyError)
  /\ (v = VNone \/ (exists b, v = VBool b) \/ (exists z, v = VInt z)
      \/ (exists f, v = VFloat f) ->
      fst (__main__ w) = Raise TypeError)
  /\ (v = VDict [] \/ v = VStr "" ->
      fst (__main__ w) = Ok tt
      /\ In (Log INFO "No interventions found.") (snd (__main__ w)))
  /\ (is_list v = false ->
      (forall c s, v <> VStr (String c s)) ->
      calls_of generate_adaptive_card_fn (snd (__main__ w)) = []
      /\ calls_of send_teams_message_fn (snd (__main__ w)) = []
      /\ printed (snd (__main__ w)) = []).
Proof.
  intros Hurl Hkey Hget.
  rewrite (main_configured w Hurl Hkey).
  destruct (get_interventions_trace w (env_str (getenv w "GTA_API_KEY"))) as (_ & Hc & Hp).
  unfold relay, call.
  destruct (get_interventions w (env_str (getenv w "GTA_API_KEY"))) as [r t].
  simpl in Hget, Hc, Hp. subst r.
  split; [|split; [|split]].
  - intros (kv & d & ->). reflexivity.
  - intros [->|[(b & ->)|[(z & ->)|(f & ->)]]]; reflexivity.
  - intros [->| ->]; (split; [reflexivity|]); simpl;
      right; apply in_or_app; right; left; reflexivity.
  - intros Hl Hs.
    destruct v; try discriminate Hl; simpl;
      try (rewrite ?calls_of_app, ?printed_app, ?Hc, ?Hp; repeat split; reflexivity).
    + destruct s as [|c s]; [|exfalso; exact (Hs c s eq_refl)].
      simpl. rewrite ?calls_of_app, ?printed_app, ?Hc, ?Hp. repeat split; reflexivity.
    + destruct d; simpl;
        rewrite ?calls_of_app, ?printed_app, ?Hc, ?Hp; repeat split; reflexivity.
Qed.

(** X12.  The two variables are checked in order, and the first check that
    fails ends the run: without [WEBHOOK_URL] (or with an empty one) the run
    logs the two records that name [WEBHOOK_URL] and nothing about
    [GTA_API_KEY], whether that one is set or not; with [WEBHOOK_URL] set
    and no [GTA_API_KEY] it logs the two records that name [GTA_API_KEY].
    Either way it raises [SystemExit(1)]. *)
Theorem missing_configuration (w : World) :
  (not_set (getenv w "WEBHOOK_URL") = true ->
   __main__ w
   = (Raise (SystemExit 1),
      [Log ERROR "FATAL: The 'WEBHOOK_URL' environment variable is not set.";
       Log ERROR "Set the environment variable in your .env file and try again."]))
  /\ (not_set (getenv w "WEBHOOK_URL") = false ->
      not_set (getenv w "GTA_API_KEY") = true ->
      __main__ w
      = (Raise (SystemExit 1),
         [Log ERROR "FATAL: The 'GTA_API_KEY' environment variable is not set.";
          Log ERROR "Set the environment variable in your .env file and try again."])).
Proof.
  unfold __main__. cbv zeta. split.
  - intros ->. reflexivity.
  - intros -> ->. reflexivity.
Qed.

(** X13.  What a run that reaches the sender comes to, case by case.
    After the fetch, the builder, the printed card and the post: when the
    webhook answers with a status outside 400..599 the run logs
    ["Message sent successfully!"] and ends normally; when it answers with a
    status from 400 to 599, or the post raises an exception of the
    [RequestException] family, the run logs the sender's error and then
    ["Failed to send message. ..."], and ends normally; when the post raises
    an exception outside that family, the sender does not catch it and the
    run ends with it, without a log record and with exit status 1. *)
Theorem run_outcome (w : World) (record card : value) (rest : list value) :
  not_set (getenv w "WEBHOOK_URL") = false ->
  not_set (getenv w "GTA_API_KEY") = false ->
  fst (get_interventions w (env_str (getenv w "GTA_API_KEY")))
  = Ok (VList (record :: rest)) ->
  _generate_adaptive_card record = Ok card ->
  let api_key := env_str (getenv w "GTA_API_KEY") in
  let webhook_url := env_str (getenv w "WEBHOOK_URL") in
  let steps :=
    [Call get_interventions_fn [VStr api_key];
     Http (fetch_request api_key);
     Call generate_adaptive_card_fn [record];
     Print card;
     Call send_teams_message_fn [VStr webhook_url; card];
     Http (webhook_request webhook_url card)] in
  (forall r, network w (webhook_request webhook_url card) = Responded r ->
     ~ (400 <= status_code r < 600)%Z ->
     __main__ w = (Ok tt, steps ++ [Log INFO "Message sent successfully!"])%list)
  /\ (forall r, network w (webhook_request webhook_url card) = Responded r ->
        (400 <= status_code r < 600)%Z ->
        __main__ w
        = (Ok tt,
           steps ++
           [Log ERROR ("Error sending message to Teams: " ++ http_error_msg r);
            Log ERROR "Failed to send message. Check the logs above for details."])%list)
  /\ (forall kind msg, network w (webhook_request webhook_url card) = Failed kind msg ->
        __main__ w
        = (Ok tt,
           steps ++
           [Log ERROR ("Error sending message to Teams: " ++ msg);
            Log ERROR "Failed to send message. Check the logs above for details."])%list)
  /\ (forall kind msg, network w (webhook_request webhook_url card) = Leaked kind msg ->
        __main__ w = (Raise (OtherException kind msg), steps)
        /\ exit_status (fst (__main__ w)) = 1%Z).
Proof.
  intros Hurl Hkey Hget Hcard api_key webhook_url steps.
  subst api_key webhook_url steps.
  rewrite (main_configured w Hurl Hkey).
  assert (Htrace : snd (get_interventions w (env_str (getenv w "GTA_API_KEY")))
                   = [Http (fetch_request (env_str (getenv w "GTA_API_KEY")))]).
  { apply (get_interventions_value_trace _ _ _ Hget). discriminate. }
  destruct (relay_first w (env_str (getenv w "WEBHOOK_URL")) _ _ _ _ Hget Hcard)
    as [(response & Hresp & ->)|(kind' & msg' & Hleak & ->)]; rewrite Htrace.
  - split; [|split; [|split]].
    + intros r Hnet Hst.
      rewrite (send_teams_message_responded _ _ _ _ Hnet), (raise_for_status_pass r Hst)
        in Hresp |- *.
      injection Hresp as <-.
      unfold outcome_log, response_truthy, ok. rewrite (raise_for_status_pass r Hst).
      reflexivity.
    + intros r Hnet Hst.
      rewrite (send_teams_message_responded _ _ _ _ Hnet), (raise_for_status_error r Hst)
        in Hresp |- *.
      injection Hresp as <-. reflexivity.
    + intros kind msg Hnet.
      rewrite (send_teams_message_failed _ _ _ kind msg Hnet) in Hresp |- *.
      injection Hresp as <-. reflexivity.
    + intros kind msg Hnet.
      rewrite (send_teams_message_leaked _ _ _ kind msg Hnet) in Hresp.
      discriminate Hresp.
  - split; [|split; [|split]].
    + intros r Hnet _. rewrite Hnet in Hleak. discriminate Hleak.
    + intros r Hnet _. rewrite Hnet in Hleak. discriminate Hleak.
    + intros kind msg Hnet. rewrite Hnet in Hleak. discriminate Hleak.
    + intros kind msg Hnet.
      rewrite (send_teams_message_leaked _ _ _ kind msg Hnet).
      rewrite Hnet in Hleak. injection Hleak as <- <-.
      split; reflexivity.
Qed.

(** X14.  A first record that the builder rejects ends the run with the
    builder's exception, right after the builder is entered: nothing is
    printed, the sender is not entered, no log record is written, and the
    exit status is 1. *)
Theorem rejected_record_ends_run (w : World) (record : value) (rest : list value) (e : exn) :
  not_set (getenv w "WEBHOOK_URL") = false ->
  not_set (getenv w "GTA_API_KEY") = false ->
  fst (get_interventions w (env_str (getenv w "GTA_API_KEY")))
  = Ok (VList (record :: rest)) ->
  _generate_adaptive_card record = Raise e ->
  __main__ w
  = (Raise e,
     [Call get_interventions_fn [VStr (env_str (getenv w "GTA_API_KEY"))];
      Http (fetch_request (env_str (getenv w "GTA_API_KEY")));
      Call generate_adaptive_card_fn [record]])
  /\ exit_status (fst (__main__ w)) = 1%Z.
Proof.
  intros Hurl Hkey Hget Hcard.
  rewrite (main_configured w Hurl Hkey).
  rewrite (relay_first_raises w _ _ _ _ e Hget Hcard).
  rewrite (get_interventions_value_trace _ _ _ Hget) by discriminate.
  split; [reflexivity|].
  destruct (generate_raise_kinds record e Hcard) as [-> | ->]; reflexivity.
Qed.

Lemma no_debug_app (t t' : list event) :
  no_debug (t ++ t')%list = no_debug t && no_debug t'.
Proof. apply forallb_app. Qed.

Lemma get_interventions_no_debug (w : World) (api_key : string) :
  no_debug (snd (get_interventions w api_key)) = true.
Proof.
  destruct (network w (fetch_request api_key)) as [r|kind msg|kind msg] eqn:Hnet.
  - rewrite (get_interventions_responded _ _ _ Hnet).
    destruct (status_code r =? 200)%Z; reflexivity.
  - rewrite (get_interventions_failed _ _ kind msg Hnet). reflexivity.
  - rewrite (get_interventions_leaked _ _ kind msg Hnet). reflexivity.
Qed.

Lemma send_teams_message_no_debug (w : World) (webhook_url : string) (payload : value) :
  no_debug (snd (send_teams_message w webhook_url payload)) = true.
Proof.
  destruct (network w (webhook_request webhook_url payload)) as [r|kind msg|kind msg] eqn:Hnet.
  - rewrite (send_teams_message_responded _ _ _ _ Hnet).
    destruct (raise_for_status r); reflexivity.
  - rewrite (send_teams_message_failed _ _ _ kind msg Hnet). reflexivity.
  - rewrite (send_teams_message_leaked _ _ _ kind msg Hnet). reflexivity.
Qed.

Ltac no_debug_events :=
  unfold logging; simpl;
  repeat (rewrite ?no_debug_app; simpl);
  repeat match goal with
         | H : no_debug _ = true |- _ => rewrite !H
         end;
  reflexivity.

(** X15.  No run writes a [DEBUG] record: with the root logger at level
    [INFO] (lines 12-15), the text of the webhook's response (line 279) is
    never logged. *)
Theorem debug_never_logged (w : World) : no_debug (snd (__main__ w)) = true.
Proof.
  destruct (not_set (getenv w "WEBHOOK_URL")) eqn:Hurl;
    [|destruct (not_set (getenv w "GTA_API_KEY")) eqn:Hkey].
  - unfold __main__. cbv zeta. rewrite Hurl. reflexivity.
  - unfold __main__. cbv zeta. rewrite Hurl, Hkey. reflexivity.
  - rewrite (main_configured w Hurl Hkey).
    pose proof (get_interventions_no_debug w (env_str (getenv w "GTA_API_KEY"))) as Hd.
    unfold relay, call.
    destruct (get_interventions w (env_str (getenv w "GTA_API_KEY"))) as [r t1].
    simpl in Hd.
    destruct r as [v|e]; cbn [iobind emit lift fst snd]; [|no_debug_events].
    destruct (py_len v) as [n|e]; cbn [iobind emit lift fst snd]; [|no_debug_events].
    destruct (negb (n =? 0)%Z); [|no_debug_events].
    destruct (py_getitem0 v) as [record|e]; cbn [iobind emit lift fst snd];
      [|no_debug_events].
    destruct (_generate_adaptive_card record) as [card|e];
      cbn [iobind emit lift fst snd]; [|no_debug_events].
    pose proof (send_teams_message_no_debug w (env_str (getenv w "WEBHOOK_URL")) card)
      as Hd2.
    destruct (send_teams_message w (env_str (getenv w "WEBHOOK_URL")) card) as [r2 t2].
    simpl in Hd2.
    destruct r2 as [response|e]; cbn [iobind emit lift fst snd]; [|no_debug_events].
    destruct (response_truthy response); no_debug_events.
Qed.

(** ** The further properties at work on the sample runs *)

Lemma builder_domain_sample :
  (exists card, _generate_adaptive_card Edge.nulls = Ok card)
  /\ accepts Edge.null_products = false
  /\ ~ (exists card, _generate_adaptive_card Edge.null_products = Ok card).
Proof.
  split; [apply (proj2 (builder_domain Edge.nulls)); reflexivity|].
  split; [reflexivity|].
  intros H. apply (proj1 (builder_domain Edge.null_products)) in H. discriminate H.
Defined.

Lemma builder_exceptions_sample :
  _generate_adaptive_card Edge.null_products = Raise TypeError
  /\ (TypeError = AttributeError \/ TypeError = TypeError).
Proof.
  split; [reflexivity|].
  apply (proj1 (builder_exceptions Edge.null_products TypeError eq_refl)).
Defined.

Lemma unread_keys_ignored_sample :
  _generate_adaptive_card Edge.annotated = _generate_adaptive_card Sample.record.
Proof.
  apply (unread_keys_ignored
           (("intervention_id", VInt 77)
              :: match Sample.record with VDict d => d | _ => [] end
              ++ [("is_official", VBool true)])%list
           (match Sample.record with VDict d => d | _ => [] end)).
  intros key Hin. simpl in Hin.
  repeat (destruct Hin as [<-|Hin]; [reflexivity|]).
  destruct Hin.
Defined.

Lemma present_fields_verbatim_sample :
  _generate_adaptive_card Edge.nulls = Ok Edge.nulls_card
  /\ field Edge.nulls "state_act_title" = Some VNone
  /\ at_path title_slot Edge.nulls_card = Some VNone.
Proof.
  split; [reflexivity|]. split; [reflexivity|].
  apply (present_fields_verbatim Edge.nulls Edge.nulls_card eq_refl
           "state_act_title" title_slot "N/A" VNone).
  - left. reflexivity.
  - reflexivity.
Defined.

Lemma counts_are_lengths_sample :
  _generate_adaptive_card Edge.nulls = Ok Edge.nulls_card
  /\ at_path (fact_slot 5) Edge.nulls_card = Some (VStr "3 sector(s)").
Proof.
  split; [reflexivity|].
  apply (proj2 (counts_are_lengths Edge.nulls Edge.nulls_card eq_refl)
           [VNone; VNone; VNone]).
  reflexivity.
Defined.

Lemma display_hides_tail_sample :
  _generate_adaptive_card Edge.nulls = Ok Edge.nulls_card
  /\ _generate_adaptive_card Edge.six = Ok Edge.six_card
  /\ at_path display_implementer_slot Edge.nulls_card
     = at_path display_implementer_slot Edge.six_card.
Proof.
  split; [reflexivity|]. split; [reflexivity|].
  apply (display_hides_tail Edge.nulls Edge.six Edge.nulls_card Edge.six_card
           [Sample.country "A"; Sample.country "B"; Sample.country "C";
            Sample.country "D"; Sample.country "E"; VDict [("name", VInt 6)]]
           [Sample.country "A"; Sample.country "B"; Sample.country "C";
            Sample.country "D"; Sample.country "E"; Sample.country "F"]);
    try reflexivity.
  simpl. lia.
Defined.

Lemma card_is_its_slots_sample :
  _generate_adaptive_card Sample.record = Ok Sample.card
  /\ (exists card',
        _generate_adaptive_card Edge.annotated = Ok card'
        /\ (forall slot, In slot all_slots ->
              at_path slot Sample.card = at_path slot card')
        /\ Sample.card = card').
Proof.
  split; [reflexivity|].
  eexists. split; [reflexivity|].
  assert (Hs : forall slot, In slot all_slots ->
                 at_path slot Sample.card = at_path slot Sample.card)
    by (intros; reflexivity).
  split; [exact Hs|].
  exact (card_is_its_slots Sample.record Edge.annotated Sample.card Sample.card
           eq_refl eq_refl Hs).
Defined.

Lemma send_teams_message_converse_sample :
  fst (send_teams_message Sample.webhook_error Sample.hook Sample.card) = Ok None
  /\ ((exists r, network Sample.webhook_error (webhook_request Sample.hook Sample.card)
                 = Responded r /\ (400 <= status_code r < 600)%Z)
      \/ exists kind msg,
           network Sample.webhook_error (webhook_request Sample.hook Sample.card)
           = Failed kind msg).
Proof.
  split; [reflexivity|].
  apply (proj2 (send_teams_message_converse Sample.webhook_error Sample.hook Sample.card)).
  reflexivity.
Defined.

Lemma fetch_body_not_json_sample :
  network Edge.not_json (fetch_request Sample.key)
  = Responded (Sample.response 200 "OK" "<html>" (Raise JSONDecodeError))
  /\ get_interventions Edge.not_json Sample.key
     = (Raise JSONDecodeError, [Http (fetch_request Sample.key)])
  /\ __main__ Edge.not_json
     = (Raise JSONDecodeError,
        [Call get_interventions_fn [VStr Sample.key]; Http (fetch_request Sample.key)]).
Proof.
  split; [reflexivity|].
  apply (fetch_body_not_json Edge.not_json
           (Sample.response 200 "OK" "<html>" (Raise JSONDecodeError)) JSONDecodeError);
    reflexivity.
Defined.

Lemma body_not_a_list_sample :
  fst (get_interventions Edge.wrapped Sample.key)
  = Ok (VDict [("results", VList [Sample.record])])
  /\ fst (__main__ Edge.wrapped) = Raise KeyError
  /\ fst (get_interventions Edge.null_body Sample.key) = Ok VNone
  /\ fst (__main__ Edge.null_body) = Raise TypeError.
Proof.
  split; [reflexivity|].
  split.
  - apply (proj1 (body_not_a_list Edge.wrapped _ eq_refl eq_refl eq_refl)).
    eexists. eexists. reflexivity.
  - split; [reflexivity|].
    apply (proj1 (proj2 (body_not_a_list Edge.null_body _ eq_refl eq_refl eq_refl))).
    left. reflexivity.
Defined.

Lemma missing_configuration_sample :
  not_set (getenv Edge.no_env "WEBHOOK_URL") = true
  /\ not_set (getenv Edge.no_env "GTA_API_KEY") = true
  /\ logged (snd (__main__ Edge.no_env))
     = [(ERROR, "FATAL: The 'WEBHOOK_URL' environment variable is not set.");
        (ERROR, "Set the environment variable in your .env file and try again.")]
  /\ not_set (getenv Edge.empty_hook "WEBHOOK_URL") = true
  /\ fst (__main__ Edge.empty_hook) = Raise (SystemExit 1).
Proof.
  split; [reflexivity|]. split; [reflexivity|].
  split; [rewrite (proj1 (missing_configuration Edge.no_env) eq_refl); reflexivity|].
  split; [reflexivity|].
  rewrite (proj1 (missing_configuration Edge.empty_hook) eq_refl). reflexivity.
Defined.

Lemma run_outcome_sample :
  logged (snd (__main__ Sample.webhook_error))
  = [(ERROR, "Error sending message to Teams: " ++ http_error_msg Sample.error_500);
     (ERROR, "Failed to send message. Check the logs above for details.")]
  /\ logged (snd (__main__ Sample.webhook_304)) = [(INFO, "Message sent successfully!")]
  /\ fst (__main__ Edge.bad_host)
     = Raise (OtherException "LocationParseError"
                "Failed to parse: 'example..com', label empty or too long")
  /\ logged (snd (__main__ Edge.bad_host)) = []
  /\ exit_status (fst (__main__ Edge.bad_host)) = 1%Z.
Proof.
  assert (Hbad := proj2 (proj2 (proj2 (run_outcome Edge.bad_host Sample.record Sample.card
                                        [] eq_refl eq_refl eq_refl eq_refl)))
                    "LocationParseError"
                    "Failed to parse: 'example..com', label empty or too long" eq_refl).
  destruct Hbad as [Hrun Hexit].
  split; [|split; [|split; [rewrite Hrun; reflexivity
                           |split; [rewrite Hrun; reflexivity | exact Hexit]]]].
  - rewrite (proj1 (proj2 (run_outcome Sample.webhook_error Sample.record Sample.card
                             [VInt 3] eq_refl eq_refl eq_refl eq_refl))
               Sample.error_500 eq_refl ltac:(simpl; lia)).
    reflexivity.
  - rewrite (proj1 (run_outcome Sample.webhook_304 Sample.record Sample.card
                      [] eq_refl eq_refl eq_refl eq_refl)
               Sample.not_modified_304 eq_refl ltac:(simpl; lia)).
    reflexivity.
Defined.

Lemma send_teams_message_raises_sample :
  network Edge.bad_host (webhook_request Edge.bad_hook Sample.card)
  = Leaked "LocationParseError" "Failed to parse: 'example..com', label empty or too long"
  /\ send_teams_message Edge.bad_host Edge.bad_hook Sample.card
     = (Raise (OtherException "LocationParseError"
                 "Failed to parse: 'example..com', label empty or too long"),
        [Http (webhook_request Edge.bad_hook Sample.card)]).
Proof.
  split; [reflexivity|].
  apply (proj1 (send_teams_message_raises Edge.bad_host Edge.bad_hook Sample.card)).
  reflexivity.
Defined.

Lemma rejected_record_ends_run_sample :
  _generate_adaptive_card Edge.null_products = Raise TypeError
  /\ __main__ Edge.bad_record
     = (Raise TypeError,
        [Call get_interventions_fn [VStr Sample.key];
         Http (fetch_request Sample.key);
         Call generate_adaptive_card_fn [Edge.null_products]])
  /\ exit_status (fst (__main__ Edge.bad_record)) = 1%Z.
Proof.
  split; [reflexivity|].
  apply (rejected_record_ends_run Edge.bad_record Edge.null_products [Sample.record]
           TypeError); reflexivity.
Defined.
